(** * ShoreSquad: the weather pipeline of the browser front-end

    Two variants of the application are verified side by side:

    - [NEA]: the variant that reads the Singapore NEA open-data endpoints
      (4-day forecast plus real-time air temperature);
    - [OWM]: [js/app.js], the variant that reads OpenWeatherMap and falls
      back on a mock reading.

    Both share the same [saveToStorage] over one localStorage blob.

    Modelling conventions.
    - A JavaScript string is a [string] of bytes (the UTF-8 text of the
      source file); ASCII needles are searched byte-wise.
    - Whole numbers of the forecast payload are [Z]; decimal readings are [Q].
    - A value that went through [JSON.stringify] is represented by the JSON
      value it parses back to, so the text kept in localStorage is
      either [NotJson] or the serialisation of an object.
    - Code inside [try { ... } catch] runs in the [result] monad; [Throw]
      is a raised exception.
    - [console.error] is not part of the state; toasts are recorded in
      [App], beside the page. *)

From Stdlib Require Import ZArith QArith Qround String Ascii List DecimalString Lia.
From stdpp Require Import gmap strings fin_maps.
Set Warnings "-register-all".

Open Scope string_scope.

(** ** Exceptions *)

Inductive JsError : Type :=
  | Error (message : string)     (* throw new Error(message) *)
  | TypeError                    (* property read on undefined or null *)
  | SyntaxError                  (* JSON.parse on text that is not JSON *)
  | SecurityError                (* localStorage access denied *)
  | QuotaExceededError.          (* localStorage.setItem over quota *)

Inductive result (A : Type) : Type :=
  | Ok (a : A)
  | Throw (e : JsError).
Arguments Ok {A} a.
Arguments Throw {A} e.

Definition bind {A B} (r : result A) (k : A -> result B) : result B :=
  match r with
  | Ok a => k a
  | Throw e => Throw e
  end.

Notation "'let*' x ':=' r 'in' k" := (bind r (fun x => k))
  (at level 10, x pattern, r at level 100, k at level 200).

(** ** Strings *)

Module JsString.

(** [toLowerCase] on the letters A-Z.  The other characters that
    JavaScript lowers are outside ASCII and stay outside it, except the
    Kelvin sign (to k) and the dotted capital I (to i followed by a
    combining dot); no needle searched by the application contains a k
    or ends in an i, so the searches below see the same answer. *)
Definition toLowerCaseChar (c : ascii) : ascii :=
  let n := nat_of_ascii c in
  if (65 <=? n)%nat && (n <=? 90)%nat then ascii_of_nat (n + 32) else c.

Fixpoint toLowerCase (s : string) : string :=
  match s with
  | EmptyString => EmptyString
  | String c s' => String (toLowerCaseChar c) (toLowerCase s')
  end.

(** [s.includes(needle)]: the needle occurs at some position of [s]. *)
Fixpoint includes (needle s : string) : bool :=
  String.prefix needle s ||
  match s with
  | EmptyString => false
  | String _ s' => includes needle s'
  end.

(** [array.join('')] on an array of strings. *)
Definition join (l : list string) : string :=
  fold_right String.append EmptyString l.

End JsString.

(** ** Numbers *)

(** [`${n}`] for a whole number: plain decimal digits, which is what
    Number::toString gives below 10^21. *)
Definition Number_toString (z : Z) : string :=
  NilZero.string_of_int (Z.to_int z).

(** [Math.round]: the nearest integer, halves going up. *)
Definition Math_round (q : Q) : Z := Qfloor (q + (1 # 2)).

(** ** JSON values *)

Inductive json : Type :=
  | JNull
  | JBool (b : bool)
  | JNum (q : Q)
  | JStr (s : string)
  | JArr (l : list json)
  | JObj (m : gmap string json).

(** ** fetch *)

(** What [await fetch(url)] and [await response.json()] can do: the request
    is rejected (network failure), or it resolves to a response that is
    [ok] or not and whose body is a document of the expected schema
    ([Some]) or not JSON at all ([None]). *)
Record Response (A : Type) : Type := { ok : bool; body : option A }.
Arguments ok {A} r.
Arguments body {A} r.

Inductive FetchOutcome (A : Type) : Type :=
  | Rejected
  | Resolved (response : Response A).
Arguments Rejected {A}.
Arguments Resolved {A} response.

Definition fetch {A} (outcome : FetchOutcome A) : result (Response A) :=
  match outcome with
  | Rejected => Throw TypeError
  | Resolved response => Ok response
  end.

Definition response_json {A} (response : Response A) : result A :=
  match body response with
  | Some data => Ok data
  | None => Throw SyntaxError
  end.

(** ** localStorage and the application state *)

(** The text of one localStorage item, as [JSON.parse] sees it.  The item
    under [storageKey] is only ever written by [saveToStorage], as the
    serialisation of an object, so a parsable item is an object.  An item
    that parses to an array or to a primitive, which only another program
    could have left there, is outside the model: the statements about
    the store are statements about stores whose item is absent, is not
    JSON, or holds a JSON object. *)
Inductive ItemText : Type :=
  | NotJson
  | ObjectText (m : gmap string json).

(** The browser's store: its items, whether access to it is denied
    (every call raises) and whether it is over quota ([setItem] raises).
    The quota is a state of the store, not a comparison with the size of
    the text written, so a statement about several writes takes the
    answer of each write as a hypothesis instead of deriving it. *)
Record LocalStorage : Type := {
  items : gmap string ItemText;
  denied : bool;
  full : bool
}.

Definition getItem (key : string) (ls : LocalStorage) : result (option ItemText) :=
  if denied ls then Throw SecurityError else Ok (items ls !! key).

Definition setItem (key : string) (text : ItemText) (ls : LocalStorage) : result LocalStorage :=
  if denied ls then Throw SecurityError
  else if full ls then Throw QuotaExceededError
  else Ok {| items := <[key := text]> (items ls); denied := denied ls; full := full ls |}.

(** [JSON.parse(text) || {}]: [JSON.parse(null)] is [null], replaced by
    the empty object. *)
Definition JSON_parse_or_empty (text : option ItemText) : result (gmap string json) :=
  match text with
  | None => Ok ∅
  | Some NotJson => Throw SyntaxError
  | Some (ObjectText m) => Ok m
  end.

(** The text of an object, up to the order of its keys: statements
    compare what is loaded from two stores, never their texts. *)
Definition JSON_stringify (storageData : gmap string json) : ItemText :=
  ObjectText storageData.

(** [storageData[key] = data] on an ordinary object.  The name
    [__proto__] reaches the accessor inherited from [Object.prototype]
    unless the object has an own property of that name (as
    [JSON.parse] creates one): the assignment then changes the prototype,
    or does nothing, and the own properties stay as they are. *)
Definition assignProperty (storageData : gmap string json) (key : string) (data : json)
  : gmap string json :=
  match storageData !! key with
  | None => if String.eqb key "__proto__" then storageData else <[key := data]> storageData
  | Some _ => <[key := data]> storageData
  end.

Definition storageKey : string := "shoresquad_data".

(** [saveToStorage(key, data)]; the same function in both variants. *)
Definition saveToStorage (key : string) (data : json) (ls : LocalStorage)
  : LocalStorage * bool :=
  match (let* text := getItem storageKey ls in
         let* storageData := JSON_parse_or_empty text in
         let storageData := assignProperty storageData key data in
         setItem storageKey (JSON_stringify storageData) ls) with
  | Ok ls' => (ls', true)
  | Throw _ => (ls, false)
  end.

(** The blob under [storageKey], when it is a readable object. *)
Definition blob (ls : LocalStorage) : option (gmap string json) :=
  match items ls !! storageKey with
  | Some (ObjectText m) => Some m
  | _ => None
  end.

(** The part of the page a weather call can touch: the store,
    [appState.currentWeather] and the [innerHTML] of the weather widget. *)
Record Page : Type := {
  localStorage : LocalStorage;
  currentWeather : json;
  weatherWidget : string
}.

(** The double quote character of the HTML templates. *)
Definition dq : string := String (ascii_of_nat 34) EmptyString.

(** ** The NEA variant *)

Module NEA.

(** *** Payloads (the fields the application reads) *)

Record Range : Type := { low : Z; high : Z }.

Record DayForecast : Type := {
  date : string;
  forecast : string;
  temperature : Range;
  relative_humidity : Range
}.

Module General.
Record t : Type := { forecast : string }.
End General.

Record ForecastItem : Type := {
  forecasts : list DayForecast;
  general : option General.t
}.

(** [items] is [None] when the document has no such member. *)
Record ForecastData : Type := { items : option (list ForecastItem) }.

Module AirTemperature.
Record Reading : Type := { station_id : string; value : Q }.
Record Item : Type := { readings : list Reading }.
Record Data : Type := { items : option (list Item) }.
End AirTemperature.

(** The same documents as JSON values, which is how they reach
    [saveToStorage]. *)
Definition Range_json (r : Range) : json :=
  JObj {[ "low" := JNum (inject_Z (low r)); "high" := JNum (inject_Z (high r)) ]}.

Definition DayForecast_json (d : DayForecast) : json :=
  JObj {[ "date" := JStr (date d);
          "forecast" := JStr (forecast d);
          "temperature" := Range_json (temperature d);
          "relative_humidity" := Range_json (relative_humidity d) ]}.

Definition ForecastItem_json (i : ForecastItem) : json :=
  let days := JArr (map DayForecast_json (forecasts i)) in
  match general i with
  | Some g => JObj {[ "forecasts" := days;
                      "general" := JObj {[ "forecast" := JStr (General.forecast g) ]} ]}
  | None => JObj {[ "forecasts" := days ]}
  end.

Definition ForecastData_json (data : ForecastData) : json :=
  match items data with
  | Some l => JObj {[ "items" := JArr (map ForecastItem_json l) ]}
  | None => JObj ∅
  end.

(** *** Fetching *)

Definition fetchWeatherForecast (outcome : FetchOutcome ForecastData) (pg : Page)
  : Page * option ForecastData :=
  match (let* response := fetch outcome in
         let* _ := if negb (ok response)
                   then Throw (Error "Weather forecast unavailable") else Ok tt in
         response_json response) with
  | Ok data =>
      let (ls, _) := saveToStorage "weatherForecast" (ForecastData_json data)
                                   (localStorage pg) in
      ({| localStorage := ls;
          currentWeather := ForecastData_json data;
          weatherWidget := weatherWidget pg |}, Some data)
  | Throw _ => (pg, None)
  end.

Definition fetchCurrentTemp (outcome : FetchOutcome AirTemperature.Data)
  : option AirTemperature.Data :=
  match (let* response := fetch outcome in
         let* _ := if negb (ok response)
                   then Throw (Error "Temperature data unavailable") else Ok tt in
         response_json response) with
  | Ok data => Some data
  | Throw _ => None
  end.

(** *** Icons and recommendation *)

Definition icon_thunder : string := "â›ˆï¸".
Definition icon_rain : string := "ğŸŒ§ï¸".
Definition icon_cloudy : string := "â˜ï¸".
Definition icon_partly_cloudy : string := "â›…".
Definition icon_sunny : string := "â˜€ï¸".
Definition icon_hazy : string := "ğŸŒ«ï¸".
Definition icon_default : string := "ğŸŒ¤ï¸".

Definition getWeatherIcon (forecast : string) : string :=
  let forecastLower := JsString.toLowerCase forecast in
  if JsString.includes "thunder" forecastLower then icon_thunder
  else if JsString.includes "rain" forecastLower || JsString.includes "shower" forecastLower
  then icon_rain
  else if JsString.includes "cloudy" forecastLower then icon_cloudy
  else if JsString.includes "partly cloudy" forecastLower then icon_partly_cloudy
  else if JsString.includes "fair" forecastLower || JsString.includes "sunny" forecastLower
  then icon_sunny
  else if JsString.includes "hazy" forecastLower then icon_hazy
  else icon_default.

Definition msg_severe : string :=
  "âš ï¸ Not ideal for cleanup today. Stay safe and check back tomorrow!".
Definition msg_gear : string :=
  "ğŸŒ§ï¸ Possible rain expected. Bring waterproof gear!".
Definition msg_heat : string :=
  "ğŸŒ¡ï¸ Hot day ahead! Remember sunscreen, hat, and plenty of water.".
Definition msg_perfect : string :=
  "âœ¨ Perfect weather for a beach cleanup! Let's go! ğŸ–ï¸".
Definition msg_good : string :=
  "ğŸ‘ Good conditions for cleanup. See you at the beach!".

Definition getCleanupRecommendation (todayForecast : DayForecast) : string :=
  let forecastLower := JsString.toLowerCase (forecast todayForecast) in
  let highTemp := high (temperature todayForecast) in
  if JsString.includes "thunder" forecastLower || JsString.includes "heavy rain" forecastLower
  then msg_severe
  else if JsString.includes "shower" forecastLower || JsString.includes "rain" forecastLower
  then msg_gear
  else if (32 <? highTemp)%Z then msg_heat
  else if JsString.includes "fair" forecastLower || JsString.includes "sunny" forecastLower
  then msg_perfect
  else msg_good.

(** *** Rendering *)

Inductive Weekday : Type := Sun | Mon | Tue | Wed | Thu | Fri | Sat.

(** [toLocaleDateString('en-SG', { weekday: 'short' })]; an invalid
    date prints as such. *)
Definition weekdayShort (d : option Weekday) : string :=
  match d with
  | Some Sun => "Sun" | Some Mon => "Mon" | Some Tue => "Tue" | Some Wed => "Wed"
  | Some Thu => "Thu" | Some Fri => "Fri" | Some Sat => "Sat"
  | None => "Invalid Date"
  end.

Definition cardHtml (dayName dateStr icon : string) (day : DayForecast) : string :=
  "
                <div class=" +:+
  dq +:+ "forecast-card" +:+ dq +:+ ">
                    <div class=" +:+
  dq +:+ "forecast-day" +:+ dq +:+ ">" +:+ dayName +:+ "</div>
                    <div class=" +:+
  dq +:+ "forecast-date" +:+ dq +:+ ">" +:+ dateStr +:+ "</div>
                    <div class=" +:+
  dq +:+ "forecast-icon" +:+ dq +:+ ">" +:+ icon +:+ "</div>
                    <div class=" +:+
  dq +:+ "forecast-temps" +:+ dq +:+ ">
                        <span class=" +:+
  dq +:+ "temp-high" +:+ dq +:+ ">" +:+ Number_toString (high (temperature day)) +:+ "Â°</span>
                        <span class=" +:+
  dq +:+ "temp-low" +:+ dq +:+ ">" +:+ Number_toString (low (temperature day)) +:+ "Â°</span>
                    </div>
                    <div class=" +:+
  dq +:+ "forecast-desc" +:+ dq +:+ ">" +:+ forecast day +:+ "</div>
                    <div class=" +:+
  dq +:+ "forecast-humidity" +:+ dq +:+ ">ğŸ’§ " +:+ Number_toString (high (relative_humidity day)) +:+ "%</div>
                </div>
            ".

Definition currentTempHtml (currentTemp : Q) : string :=
  "<div class=" +:+ dq +:+ "current-temp" +:+ dq +:+ ">Current: " +:+ Number_toString (Math_round currentTemp) +:+ "Â°C</div>".

Definition generalHtml (text : string) : string :=
  "<p style=" +:+ dq +:+ "margin-top: 0.5rem; font-size: 0.875rem; color: var(--gray-700);" +:+ dq +:+ ">" +:+ text +:+ "</p>".

Definition widgetHtml (currentTempHtml forecastCards recommendation generalHtml : string)
  : string :=
  "
            <div class=" +:+
  dq +:+ "weather-header" +:+ dq +:+ ">
                <h3>ğŸŒŠ Singapore Weather Forecast</h3>
                " +:+
  currentTempHtml +:+ "
            </div>
            <div class=" +:+
  dq +:+ "forecast-grid" +:+ dq +:+ ">
                " +:+
  forecastCards +:+ "
            </div>
            <div class=" +:+
  dq +:+ "weather-footer" +:+ dq +:+ ">
                <p style=" +:+
  dq +:+ "color: var(--success); font-weight: 600;" +:+ dq +:+ ">
                    " +:+
  recommendation +:+ "
                </p>
                " +:+
  generalHtml +:+ "
            </div>
        ".

Definition failureHtml : string :=
  "
            <div style=" +:+
  dq +:+ "text-align: center; padding: 2rem;" +:+ dq +:+ ">
                <p style=" +:+
  dq +:+ "color: var(--gray-700); margin-bottom: 1rem;" +:+ dq +:+ ">Unable to load weather forecast</p>
                <button class=" +:+
  dq +:+ "btn btn-primary" +:+ dq +:+ " onclick=" +:+ dq +:+ "displayWeather()" +:+ dq +:+ ">Retry</button>
            </div>
        ".

(** The two conditional holes of the widget: a value that is [null],
    zero or the empty string leaves its hole empty. *)
Definition currentTempSlot (currentTemp : option Q) : string :=
  match currentTemp with
  | Some t => if Qeq_bool t 0 then EmptyString else currentTempHtml t
  | None => EmptyString
  end.

Definition generalSlot (generalForecast : option General.t) : string :=
  match generalForecast with
  | Some g => if String.eqb (General.forecast g) EmptyString then EmptyString
              else generalHtml (General.forecast g)
  | None => EmptyString
  end.

(** [currentTemp]: the first reading of the first item, [null] when the
    secondary source gave nothing; reading [items[0].readings] of an
    empty [items] raises. *)
Definition readCurrentTemp (tempData : option AirTemperature.Data) : result (option Q) :=
  match tempData with
  | None => Ok None
  | Some data =>
      match AirTemperature.items data with
      | None => Ok None
      | Some [] => Throw TypeError
      | Some (item0 :: _) =>
          match AirTemperature.readings item0 with
          | [] => Ok None
          | reading0 :: _ => Ok (Some (AirTemperature.value reading0))
          end
      end
  end.

Section Locale.

(** The browser's calendar: the weekday of [new Date(day.date)] in the
    user's time zone ([None] for an invalid date), and the
    month-and-day text of the same date. *)
Variable weekdayOf : string -> option Weekday.
Variable monthDayOf : string -> string.

Definition dayName (index : nat) (day : DayForecast) : string :=
  if (index =? 0)%nat then "Today" else weekdayShort (weekdayOf (date day)).

Definition dateStr (day : DayForecast) : string := monthDayOf (date day).

(** The callback of [forecasts.map]. *)
Definition forecastCard (index : nat) (day : DayForecast) : string :=
  cardHtml (dayName index day) (dateStr day) (getWeatherIcon (forecast day)) day.

(** The body of the [try] block of [displayWeather], after the two
    fetches have settled. *)
Definition renderWeather (forecastData : option ForecastData)
    (tempData : option AirTemperature.Data) : result string :=
  let* item0 :=
    match forecastData with
    | None => Throw (Error "No forecast data available")
    | Some data =>
        match items data with
        | None | Some [] => Throw (Error "No forecast data available")
        | Some (item0 :: _) => Ok item0
        end
    end in
  let forecasts := forecasts item0 in
  let* currentTemp := readCurrentTemp tempData in
  let generalForecast := general item0 in
  let forecastCards := JsString.join (imap forecastCard forecasts) in
  let* today := match forecasts with
                | [] => Throw TypeError
                | today :: _ => Ok today
                end in
  Ok (widgetHtml (currentTempSlot currentTemp) forecastCards
                 (getCleanupRecommendation today) (generalSlot generalForecast)).

Definition displayWeather (primary : FetchOutcome ForecastData)
    (secondary : FetchOutcome AirTemperature.Data) (pg : Page) : Page :=
  let (pg, forecastData) := fetchWeatherForecast primary pg in
  let tempData := fetchCurrentTemp secondary in
  {| localStorage := localStorage pg;
     currentWeather := currentWeather pg;
     weatherWidget := match renderWeather forecastData tempData with
                      | Ok html => html
                      | Throw _ => failureHtml
                      end |}.

End Locale.

End NEA.

(** ** The OpenWeatherMap variant ([js/app.js]) *)

Module OWM.

Record Main : Type := { temp : Q; feels_like : Q; humidity : Q }.

Module Weather.
Record t : Type := { main : string; description : string; icon : string }.
End Weather.

Record Wind : Type := { speed : Q }.

Record WeatherData : Type := {
  name : string;
  main : Main;
  weather : list Weather.t;
  wind : Wind;
  visibility : Q
}.

Definition Weather_json (w : Weather.t) : json :=
  JObj {[ "main" := JStr (Weather.main w);
          "description" := JStr (Weather.description w);
          "icon" := JStr (Weather.icon w) ]}.

Definition WeatherData_json (data : WeatherData) : json :=
  JObj {[ "name" := JStr (name data);
          "main" := JObj {[ "temp" := JNum (temp (main data));
                            "feels_like" := JNum (feels_like (main data));
                            "humidity" := JNum (humidity (main data)) ]};
          "weather" := JArr (map Weather_json (weather data));
          "wind" := JObj {[ "speed" := JNum (speed (wind data)) ]};
          "visibility" := JNum (visibility data) ]}.

Definition getMockWeatherData : WeatherData :=
  {| name := "Sample Beach";
     main := {| temp := 24; feels_like := 23; humidity := 65 |};
     weather := [ {| Weather.main := "Clear";
                     Weather.description := "clear sky";
                     Weather.icon := "01d" |} ];
     wind := {| speed := 52 # 10 |};
     visibility := 10000 |}.

(** The coordinates only build the URL; what comes back is [outcome]. *)
Definition fetchWeatherData (lat lon : Q) (outcome : FetchOutcome WeatherData) (pg : Page)
  : Page * WeatherData :=
  match (let* response := fetch outcome in
         let* _ := if negb (ok response)
                   then Throw (Error "Weather data unavailable") else Ok tt in
         response_json response) with
  | Ok data =>
      let (ls, _) := saveToStorage "currentWeather" (WeatherData_json data)
                                   (localStorage pg) in
      ({| localStorage := ls;
          currentWeather := WeatherData_json data;
          weatherWidget := weatherWidget pg |}, data)
  | Throw _ => (pg, getMockWeatherData)
  end.

Definition msg_not_ideal : string :=
  "🌧️ Not ideal for cleanup today. Check back tomorrow!".
Definition msg_hot : string :=
  "🌡️ Hot day! Remember sunscreen and hydration.".
Definition msg_chilly : string :=
  "🧥 Bit chilly! Bring a jacket for the cleanup.".
Definition msg_perfect : string :=
  "✨ Perfect weather for a beach cleanup!".

Definition Qltb (x y : Q) : bool := negb (Qle_bool y x).

(** [weatherData.weather[0].main] raises on an empty [weather]. *)
Definition getWeatherRecommendation (weatherData : WeatherData) : result string :=
  let* weather0 := match weather weatherData with
                   | [] => Throw TypeError
                   | weather0 :: _ => Ok weather0
                   end in
  let condition := Weather.main weather0 in
  let temp := temp (main weatherData) in
  if String.eqb condition "Rain" || String.eqb condition "Thunderstorm"
  then Ok msg_not_ideal
  else if Qltb 30 temp then Ok msg_hot
  else if Qltb temp 15 then Ok msg_chilly
  else Ok msg_perfect.

End OWM.

(** ** Vocabulary of the statements *)

(** The ways a source can fail: the request is rejected, the response is
    not [ok], or its body is not JSON. *)
Definition rejects {A} (outcome : FetchOutcome A) : bool :=
  match outcome with
  | Rejected => true
  | Resolved response =>
      negb (ok response) || match body response with Some _ => false | None => true end
  end.

(** A successful response carrying [data]. *)
Definition delivers {A} (data : A) : FetchOutcome A :=
  Resolved {| ok := true; body := Some data |}.

(** The temperature rules of [OWM.getWeatherRecommendation], which are
    all that is left once the two exact condition names are excluded. *)
Definition byTemperature (tempC : Q) : string :=
  if OWM.Qltb 30 tempC then OWM.msg_hot
  else if OWM.Qltb tempC 15 then OWM.msg_chilly
  else OWM.msg_perfect.

(** Sample inputs. *)
Definition day (text : string) (highC : Z) : NEA.DayForecast :=
  {| NEA.date := "2025-12-05";
     NEA.forecast := text;
     NEA.temperature := {| NEA.low := 24; NEA.high := highC |};
     NEA.relative_humidity := {| NEA.low := 60; NEA.high := 95 |} |}.

Definition reading (condition : string) (tempC : Q) : OWM.WeatherData :=
  {| OWM.name := "East Coast Park";
     OWM.main := {| OWM.temp := tempC; OWM.feels_like := tempC; OWM.humidity := 65 |};
     OWM.weather := [ {| OWM.Weather.main := condition;
                         OWM.Weather.description := condition;
                         OWM.Weather.icon := "01d" |} ];
     OWM.wind := {| OWM.speed := 3 |};
     OWM.visibility := 10000 |}.

Definition forecastOf (days : list NEA.DayForecast) : NEA.ForecastData :=
  {| NEA.items := Some [ {| NEA.forecasts := days; NEA.general := None |} ] |}.

Definition emptyStore : LocalStorage :=
  {| items := ∅; denied := false; full := false |}.

Definition freshPage : Page :=
  {| localStorage := emptyStore; currentWeather := JNull; weatherWidget := EmptyString |}.

(** A calendar for the examples: every date is a Friday in December. *)
Definition fridays (date : string) : option NEA.Weekday := Some NEA.Fri.
Definition december (date : string) : string := "5 Dec".

(** The retry affordance of the failure view. *)
Definition retryButton : string :=
  "<button class=" +:+ dq +:+ "btn btn-primary" +:+ dq +:+
  " onclick=" +:+ dq +:+ "displayWeather()" +:+ dq +:+ ">Retry</button>".

Definition airTemperatureOf (celsius : Q) : NEA.AirTemperature.Data :=
  {| NEA.AirTemperature.items :=
       Some [ {| NEA.AirTemperature.readings :=
                   [ {| NEA.AirTemperature.station_id := "S50";
                        NEA.AirTemperature.value := celsius |} ] |} ] |}.

(** ** Reading the store back *)

(** What [storageData[key]] evaluates to: an own entry of the parsed
    blob, a member inherited from [Object.prototype] (a function, or the
    prototype itself for __proto__), or [undefined]. *)
Inductive JsValue : Type :=
  | Undefined
  | Value (j : json)
  | Inherited (name : string).

(** The members of [Object.prototype] in a browser. *)
Definition Object_prototype_names : list string :=
  [ "constructor"; "hasOwnProperty"; "isPrototypeOf"; "propertyIsEnumerable";
    "toLocaleString"; "toString"; "valueOf"; "__proto__";
    "__defineGetter__"; "__defineSetter__"; "__lookupGetter__"; "__lookupSetter__" ].

Definition isInherited (key : string) : bool :=
  existsb (String.eqb key) Object_prototype_names.

Definition truthy_json (j : json) : bool :=
  match j with
  | JNull => false
  | JBool b => b
  | JNum q => negb (Qeq_bool q 0)
  | JStr s => negb (String.eqb s EmptyString)
  | JArr _ | JObj _ => true
  end.

Definition truthy (v : JsValue) : bool :=
  match v with
  | Undefined => false
  | Value j => truthy_json j
  | Inherited _ => true
  end.

Definition getProperty (storageData : gmap string json) (key : string) : JsValue :=
  match storageData !! key with
  | Some data => Value data
  | None => if isInherited key then Inherited key else Undefined
  end.

(** [loadFromStorage(key)]; the same function in both variants.  The
    result [null] is [Value JNull]. *)
Definition loadFromStorage (key : string) (ls : LocalStorage) : JsValue :=
  match (let* text := getItem storageKey ls in
         JSON_parse_or_empty text) with
  | Ok storageData =>
      let stored := getProperty storageData key in
      if truthy stored then stored else Value JNull
  | Throw _ => Value JNull
  end.

(** ** Geolocation, toasts and the rest of the application state *)

Record Location : Type := { lat : Q; lon : Q }.

Definition Location_json (location : Location) : json :=
  JObj {[ "lat" := JNum (lat location); "lon" := JNum (lon location) ]}.

(** What the browser answers to [getCurrentPosition]: there is no
    [navigator.geolocation], a position, or a position error (permission
    denied, position unavailable, timeout). *)
Inductive PositionOutcome : Type :=
  | NoGeolocation
  | PositionFound (latitude longitude : Q)
  | PositionFailed.

(** How a promise settles. *)
Inductive Reason : Type :=
  | Raised (e : JsError)
  | GeolocationPositionError.

Inductive Settled (A : Type) : Type :=
  | Fulfilled (a : A)
  | RejectedWith (reason : Reason).
Arguments Fulfilled {A} a.
Arguments RejectedWith {A} reason.

(** The page together with [appState.userLocation], the messages handed
    to [showToast] (oldest first) and whether the map section was
    scrolled into view.  The elements the handlers look up by id are
    taken to be in the document. *)
Record App : Type := {
  page : Page;
  userLocation : option Location;
  toasts : list string;
  scrolledToMap : bool
}.

(** [showToast(message)]: the message is shown; the timer that hides it
    again is not modelled. *)
Definition showToast (message : string) (app : App) : App :=
  {| page := page app;
     userLocation := userLocation app;
     toasts := toasts app ++ [message];
     scrolledToMap := scrolledToMap app |}.

(** [getUserLocation()]; the same function in both variants. *)
Definition getUserLocation (geo : PositionOutcome) (app : App) : App * Settled Location :=
  match geo with
  | NoGeolocation => (app, RejectedWith (Raised (Error "Geolocation is not supported")))
  | PositionFound latitude longitude =>
      let location := {| lat := latitude; lon := longitude |} in
      let (ls, _) := saveToStorage "userLocation" (Location_json location)
                                   (localStorage (page app)) in
      ({| page := {| localStorage := ls;
                     currentWeather := currentWeather (page app);
                     weatherWidget := weatherWidget (page app) |};
          userLocation := Some location;
          toasts := toasts app;
          scrolledToMap := scrolledToMap app |}, Fulfilled location)
  | PositionFailed => (app, RejectedWith GeolocationPositionError)
  end.

Definition scrollToMap (app : App) : App :=
  {| page := page app;
     userLocation := userLocation app;
     toasts := toasts app;
     scrolledToMap := true |}.

(** *** The handlers of the NEA variant *)

Module NEAPage.

Definition toast_getting : string :=
"ğŸ“ Getting your location...".
Definition toast_acquired : string :=
"âœ… Location acquired! Loading cleanups...".
Definition toast_unable : string :=
"âŒ Unable to access location. Please enable location services.".

Definition handleFindCleanups (geo : PositionOutcome) (app : App) : App :=
let app := showToast toast_getting app in
match getUserLocation geo app with
| (app, Fulfilled location) =>
    let app := showToast toast_acquired app in
    scrollToMap app
| (app, RejectedWith _) => showToast toast_unable app
end.

End NEAPage.

(** *** The weather view and the handlers of [js/app.js] *)

Module OWMPage.

Definition weatherIcons : gmap string string :=
{[ "Clear" := "☀️";
   "Clouds" := "☁️";
   "Rain" := "🌧️";
   "Drizzle" := "🌦️";
   "Thunderstorm" := "⛈️";
   "Snow" := "❄️";
   "Mist" := "🌫️" ]}.

Definition icon_default : string := "🌤️".

Definition toast_getting : string :=
"📍 Getting your location...".
Definition toast_acquired : string :=
"✅ Location acquired! Loading cleanups...".
Definition toast_unable : string :=
"❌ Unable to access location. Please enable location services.".

Section Formatting.

(** Number formatting that is not reproduced here: the text of a
decimal number in a template, the text of
[(visibility / 1000).toFixed(1)], and the text of a member of
[Object.prototype]. *)
Variable decimalText : Q -> string.
Variable kilometresText : Q -> string.
Variable memberText : string -> string.

(** [weatherIcons[main] || default]. *)
Definition iconFor (main : string) : string :=
match weatherIcons !! main with
| Some icon => icon
| None => if isInherited main then memberText main else icon_default
end.

Definition widgetHtml (icon : string) (temp feelsLike : Z) (weatherData : OWM.WeatherData)
(recommendation : string) : string :=
"
        <div class=" +:+
dq +:+ "weather-content" +:+ dq +:+ ">
            <div class=" +:+
dq +:+ "weather-main" +:+ dq +:+ ">
                <span class=" +:+
dq +:+ "weather-icon" +:+ dq +:+ ">" +:+ icon +:+ "</span>
                <div>
                    <div class=" +:+
dq +:+ "weather-temp" +:+ dq +:+ ">" +:+ Number_toString temp +:+ "°C</div>
                    <div style=" +:+
dq +:+ "color: var(--gray-700);" +:+ dq +:+ ">Feels like " +:+ Number_toString feelsLike +:+ "°C</div>
                </div>
            </div>
            <div class=" +:+
dq +:+ "weather-details" +:+ dq +:+ ">
                <div class=" +:+
dq +:+ "weather-detail" +:+ dq +:+ ">
                    <span>📍</span>
                    <span>" +:+
OWM.name weatherData +:+ "</span>
                </div>
                <div class=" +:+
dq +:+ "weather-detail" +:+ dq +:+ ">
                    <span>💨</span>
                    <span>Wind: " +:+
decimalText (OWM.speed (OWM.wind weatherData)) +:+ " m/s</span>
                </div>
                <div class=" +:+
dq +:+ "weather-detail" +:+ dq +:+ ">
                    <span>💧</span>
                    <span>Humidity: " +:+
decimalText (OWM.humidity (OWM.main weatherData)) +:+ "%</span>
                </div>
                <div class=" +:+
dq +:+ "weather-detail" +:+ dq +:+ ">
                    <span>👁️</span>
                    <span>Visibility: " +:+
kilometresText (OWM.visibility weatherData) +:+ " km</span>
                </div>
            </div>
        </div>
        <div style=" +:+
dq +:+ "margin-top: 1rem; padding-top: 1rem; border-top: 1px solid var(--gray-200);" +:+ dq +:+ ">
            <p style=" +:+
dq +:+ "color: var(--success); font-weight: 600;" +:+ dq +:+ ">
                " +:+
recommendation +:+ "
            </p>
        </div>
    ".

(** [displayWeather(weatherData)]: the new [innerHTML] of the widget, or
the exception raised before it is assigned. *)
Definition displayWeather (weatherData : OWM.WeatherData) : result string :=
let* weather0 := match OWM.weather weatherData with
               | [] => Throw TypeError
               | weather0 :: _ => Ok weather0
               end in
let icon := iconFor (OWM.Weather.main weather0) in
let temp := Math_round (OWM.temp (OWM.main weatherData)) in
let feelsLike := Math_round (OWM.feels_like (OWM.main weatherData)) in
let* recommendation := OWM.getWeatherRecommendation weatherData in
Ok (widgetHtml icon temp feelsLike weatherData recommendation).

Definition handleFindCleanups (geo : PositionOutcome)
(api : FetchOutcome OWM.WeatherData) (app : App) : App :=
let app := showToast toast_getting app in
match getUserLocation geo app with
| (app, Fulfilled location) =>
  let app := showToast toast_acquired app in
  let (pg, weather) := OWM.fetchWeatherData (lat location) (lon location) api (page app) in
  match displayWeather weather with
  | Ok html =>
      scrollToMap {| page := {| localStorage := localStorage pg;
                                currentWeather := currentWeather pg;
                                weatherWidget := html |};
                     userLocation := userLocation app;
                     toasts := toasts app;
                     scrolledToMap := scrolledToMap app |}
  | Throw _ =>
      showToast toast_unable {| page := pg;
                                userLocation := userLocation app;
                                toasts := toasts app;
                                scrolledToMap := scrolledToMap app |}
  end
| (app, RejectedWith _) => showToast toast_unable app
end.

End Formatting.

End OWMPage.

(** *** Events ([js/app.js]) *)

Module Events.

Record Event : Type := {
id : Z;
title : string;
date : string;
time : string;
location : string;
attendees : Z;
image : string
}.

Definition getMockEvents : list Event :=
[ {| id := 1; title := "Sunset Beach Cleanup"; date := "2025-12-05"; time := "16:00";
     location := "Bondi Beach, Sydney"; attendees := 23;
     image := "https://images.unsplash.com/photo-1559827260-dc66d52bef19?w=400" |};
  {| id := 2; title := "Saturday Squad Session"; date := "2025-12-07"; time := "09:00";
     location := "Venice Beach, LA"; attendees := 45;
     image := "https://images.unsplash.com/photo-1507525428034-b723cf961d3e?w=400" |};
  {| id := 3; title := "Morning Coastal Care"; date := "2025-12-08"; time := "08:00";
     location := "Miami Beach, FL"; attendees := 31;
     image := "https://images.unsplash.com/photo-1471922694854-ff1b63b20054?w=400" |} ].

Definition emptyHtml : string :=
"
            <div style=" +:+
  dq +:+ "grid-column: 1 / -1; text-align: center; padding: 2rem;" +:+ dq +:+ ">
                <p style=" +:+
  dq +:+ "font-size: 1.25rem; color: var(--gray-700);" +:+ dq +:+ ">No upcoming events found.</p>
                <button class=" +:+
  dq +:+ "btn btn-primary" +:+ dq +:+ " style=" +:+ dq +:+ "margin-top: 1rem;" +:+ dq +:+ " id=" +:+ dq +:+ "createFirstEvent" +:+ dq +:+ ">Create First Event</button>
            </div>
        ".

Section Dates.

(** [formatDate]: the en-US text of a date, as the browser prints it. *)
Variable formatDate : string -> string.

Definition eventCard (event : Event) : string :=
"
        <article class=" +:+
dq +:+ "event-card" +:+ dq +:+ ">
            <img src=" +:+
dq +:+ image event +:+ dq +:+ " alt=" +:+ dq +:+ title event +:+ dq +:+ " class=" +:+ dq +:+ "event-image" +:+ dq +:+ " loading=" +:+ dq +:+ "lazy" +:+ dq +:+ ">
            <div class=" +:+
dq +:+ "event-content" +:+ dq +:+ ">
                <h3 class=" +:+
dq +:+ "event-title" +:+ dq +:+ ">" +:+ title event +:+ "</h3>
                <div class=" +:+
dq +:+ "event-meta" +:+ dq +:+ ">
                    <div class=" +:+
dq +:+ "event-meta-item" +:+ dq +:+ ">
                        <span>📅</span>
                        <span>" +:+
formatDate (date event) +:+ " at " +:+ time event +:+ "</span>
                    </div>
                    <div class=" +:+
dq +:+ "event-meta-item" +:+ dq +:+ ">
                        <span>📍</span>
                        <span>" +:+
location event +:+ "</span>
                    </div>
                    <div class=" +:+
dq +:+ "event-meta-item" +:+ dq +:+ ">
                        <span>👥</span>
                        <span>" +:+
Number_toString (attendees event) +:+ " attending</span>
                    </div>
                </div>
                <div class=" +:+
dq +:+ "event-actions" +:+ dq +:+ ">
                    <button class=" +:+
dq +:+ "btn btn-primary" +:+ dq +:+ " data-event-id=" +:+ dq +:+ Number_toString (id event) +:+ dq +:+ ">Join Cleanup</button>
                    <button class=" +:+
dq +:+ "btn btn-text" +:+ dq +:+ " data-event-id=" +:+ dq +:+ Number_toString (id event) +:+ dq +:+ ">Details</button>
                </div>
            </div>
        </article>
    ".

(** The text of a card before and after its Join button. *)
Definition beforeJoinButton (event : Event) : string :=
"
        <article class=" +:+
dq +:+ "event-card" +:+ dq +:+ ">
            <img src=" +:+
dq +:+ image event +:+ dq +:+ " alt=" +:+ dq +:+ title event +:+ dq +:+ " class=" +:+ dq +:+ "event-image" +:+ dq +:+ " loading=" +:+ dq +:+ "lazy" +:+ dq +:+ ">
            <div class=" +:+
dq +:+ "event-content" +:+ dq +:+ ">
                <h3 class=" +:+
dq +:+ "event-title" +:+ dq +:+ ">" +:+ title event +:+ "</h3>
                <div class=" +:+
dq +:+ "event-meta" +:+ dq +:+ ">
                    <div class=" +:+
dq +:+ "event-meta-item" +:+ dq +:+ ">
                        <span>📅</span>
                        <span>" +:+
formatDate (date event) +:+ " at " +:+ time event +:+ "</span>
                    </div>
                    <div class=" +:+
dq +:+ "event-meta-item" +:+ dq +:+ ">
                        <span>📍</span>
                        <span>" +:+
location event +:+ "</span>
                    </div>
                    <div class=" +:+
dq +:+ "event-meta-item" +:+ dq +:+ ">
                        <span>👥</span>
                        <span>" +:+
Number_toString (attendees event) +:+ " attending</span>
                    </div>
                </div>
                <div class=" +:+
dq +:+ "event-actions" +:+ dq +:+ ">
                    ".

Definition afterJoinButton (event : Event) : string :=
"
                    <button class=" +:+
dq +:+ "btn btn-text" +:+ dq +:+ " data-event-id=" +:+ dq +:+ Number_toString (id event) +:+ dq +:+ ">Details</button>
                </div>
            </div>
        </article>
    ".

(** [displayEvents(events)]: the new [innerHTML] of the events grid. *)
Definition displayEvents (events : list Event) : string :=
match events with
| [] => emptyHtml
| _ => JsString.join (map eventCard events)
end.

End Dates.

End Events.

(** The two buttons of an event card. *)
Definition joinButton (eventId : Z) : string :=
  "<button class=" +:+ dq +:+ "btn btn-primary" +:+ dq +:+ " data-event-id=" +:+ dq +:+
  Number_toString eventId +:+ dq +:+ ">Join Cleanup</button>".

Definition startApp : App :=
  {| page := freshPage; userLocation := None; toasts := []; scrolledToMap := false |}.

(** The store can be read: access is allowed and the blob, if any,
    parses.  It can be written when, besides, it is not over quota. *)
Definition readable (ls : LocalStorage) : bool :=
  negb (denied ls) &&
  match items ls !! storageKey with
  | Some NotJson => false
  | _ => true
  end.

Definition writable (ls : LocalStorage) : bool := readable ls && negb (full ls).

(** The position a geolocation answer carries, if any. *)
Definition positionOf (geo : PositionOutcome) : option Location :=
  match geo with
  | PositionFound latitude longitude => Some {| lat := latitude; lon := longitude |}
  | _ => None
  end.

(** The reading [OWM.fetchWeatherData] hands to its caller: the delivered
    one, or the mock. *)
Definition weatherFrom (api : FetchOutcome OWM.WeatherData) : OWM.WeatherData :=
  match api with
  | Rejected => OWM.getMockWeatherData
  | Resolved response =>
      match ok response, body response with
      | true, Some data => data
      | _, _ => OWM.getMockWeatherData
      end
  end.

(** The first day of the first item of a delivered forecast, if there is
    one. *)
Definition firstDay (primary : FetchOutcome NEA.ForecastData) : option NEA.DayForecast :=
  match primary with
  | Rejected => None
  | Resolved response =>
      match ok response, body response with
      | true, Some data =>
          match NEA.items data with
          | Some (item0 :: _) => head (NEA.forecasts item0)
          | _ => None
          end
      | _, _ => None
      end
  end.

(** The secondary source answers with a document whose list of items is
    there but empty. *)
Definition emptyItems (secondary : FetchOutcome NEA.AirTemperature.Data) : bool :=
  match secondary with
  | Rejected => false
  | Resolved response =>
      match ok response, body response with
      | true, Some data =>
          match NEA.AirTemperature.items data with
          | Some [] => true
          | _ => false
          end
      | _, _ => false
      end
  end.

(** The lowered forecast text of a day contains [word]. *)
Definition mentions (word : string) (d : NEA.DayForecast) : bool :=
  JsString.includes word (JsString.toLowerCase (NEA.forecast d)).

(** The elements of a forecast card that the statements look for: the
    label of the day, its high temperature and its description; and the
    text of the card around them. *)
Definition dayLabel (dayName : string) : string :=
  "<div class=" +:+ dq +:+ "forecast-day" +:+ dq +:+ ">" +:+ dayName +:+ "</div>".

Definition highSpan (highC : Z) : string :=
  "<span class=" +:+ dq +:+ "temp-high" +:+ dq +:+ ">" +:+ Number_toString highC +:+ "Â°</span>".

Definition descLine (text : string) : string :=
  "<div class=" +:+ dq +:+ "forecast-desc" +:+ dq +:+ ">" +:+ text +:+ "</div>".

Definition cardStart : string :=
  "
                <div class=" +:+
    dq +:+ "forecast-card" +:+ dq +:+ ">
                    ".

Definition cardAfterLabel (dateStr icon : string) : string :=
  "
                    <div class=" +:+
    dq +:+ "forecast-date" +:+ dq +:+ ">" +:+ dateStr +:+ "</div>
                    <div class=" +:+
    dq +:+ "forecast-icon" +:+ dq +:+ ">" +:+ icon +:+ "</div>
                    <div class=" +:+
    dq +:+ "forecast-temps" +:+ dq +:+ ">
                        ".

Definition cardAfterHigh (day : NEA.DayForecast) : string :=
  "
                        <span class=" +:+
    dq +:+ "temp-low" +:+ dq +:+ ">" +:+ Number_toString (NEA.low (NEA.temperature day)) +:+ "Â°</span>
                    </div>
                    ".

Definition cardEnd (day : NEA.DayForecast) : string :=
  "
                    <div class=" +:+
    dq +:+ "forecast-humidity" +:+ dq +:+ ">ğŸ’§ " +:+ Number_toString (NEA.high (NEA.relative_humidity day)) +:+ "%</div>
                </div>
            ".

(** * Properties *)

(** ** Searching in strings *)

Section StringSearch.

Import JsString.

Lemma append_nil (s : string) : EmptyString +:+ s = s.
Proof. reflexivity. Qed.

Lemma append_cons (c : ascii) (s t : string) : String c s +:+ t = String c (s +:+ t).
Proof. reflexivity. Qed.

Lemma append_assoc (a b c : string) : (a +:+ b) +:+ c = a +:+ b +:+ c.
Proof.
  induction a as [|x a IH]; [reflexivity|].
  now rewrite !append_cons, IH.
Qed.

Lemma prefix_iff_append (needle s : string) :
  String.prefix needle s = true <-> exists rest, s = needle +:+ rest.
Proof.
  revert s; induction needle as [|a needle IH]; intros s.
  - split; [intros _; exists s; reflexivity | destruct s; reflexivity].
  - destruct s as [|b s]; simpl.
    + split; [discriminate | intros [rest H]; rewrite append_cons in H; discriminate H].
    + destruct (ascii_dec a b) as [->|Hne].
      * rewrite IH. split; intros [rest H]; exists rest; rewrite append_cons in *; congruence.
      * split; [discriminate | intros [rest H]; rewrite append_cons in H; congruence].
Qed.

Lemma includes_nil (needle : string) :
  includes needle EmptyString = String.prefix needle EmptyString.
Proof. unfold includes. now rewrite orb_false_r. Qed.

Lemma includes_cons (needle : string) (c : ascii) (s : string) :
  includes needle (String c s) = String.prefix needle (String c s) || includes needle s.
Proof. reflexivity. Qed.

Lemma includes_iff_append (needle s : string) :
  includes needle s = true <-> exists before after, s = before +:+ needle +:+ after.
Proof.
  induction s as [|c s IH].
  - rewrite includes_nil, prefix_iff_append. split.
    + intros [rest H]. exists EmptyString, rest. exact H.
    + intros [[|b before] [after H]]; [exists after; exact H | discriminate H].
  - rewrite includes_cons, orb_true_iff, prefix_iff_append, IH. split.
    + intros [[rest H] | (before & after & H)].
      * exists EmptyString, rest. exact H.
      * exists (String c before), after. rewrite append_cons. now rewrite H.
    + intros ([|b before] & after & H).
      * left. exists after. exact H.
      * right. rewrite append_cons in H. exists before, after. congruence.
Qed.

(** A text that contains [outer] contains every piece of [outer]. *)
Lemma includes_within (inner outer s : string) :
  includes inner outer = true -> includes outer s = true -> includes inner s = true.
Proof.
  rewrite !includes_iff_append.
  intros (b1 & a1 & ->) (b2 & a2 & ->).
  exists (b2 +:+ b1), (a1 +:+ a2).
  now rewrite !append_assoc.
Qed.

Lemma toLowerCase_append (a b : string) :
  toLowerCase (a +:+ b) = toLowerCase a +:+ toLowerCase b.
Proof.
  induction a as [|x a IH]; [reflexivity|].
  rewrite append_cons. simpl. now rewrite IH, append_cons.
Qed.

(** Matching after lowering both sides is matching without regard to
    letter case. *)
Lemma includes_toLowerCase (needle s : string) :
  includes needle s = true -> includes (toLowerCase needle) (toLowerCase s) = true.
Proof.
  rewrite !includes_iff_append.
  intros (before & after & ->).
  exists (toLowerCase before), (toLowerCase after).
  now rewrite !toLowerCase_append.
Qed.

End StringSearch.

Lemma includes_append_r (needle before s : string) :
  JsString.includes needle s = true -> JsString.includes needle (before +:+ s) = true.
Proof.
  rewrite !includes_iff_append. intros (b & a & ->).
  exists (before +:+ b), a. now rewrite append_assoc.
Qed.

Lemma includes_append_l (needle s after : string) :
  JsString.includes needle s = true -> JsString.includes needle (s +:+ after) = true.
Proof.
  rewrite !includes_iff_append. intros (b & a & ->).
  exists b, (a +:+ after). now rewrite !append_assoc.
Qed.

Lemma join_app (a b : list string) :
  JsString.join (a ++ b) = JsString.join a +:+ JsString.join b.
Proof.
  induction a as [|x a IH]; [reflexivity|].
  change (JsString.join ((x :: a) ++ b)) with (x +:+ JsString.join (a ++ b)).
  change (JsString.join (x :: a)) with (x +:+ JsString.join a).
  now rewrite IH, append_assoc.
Qed.

Lemma includes_join (needle x : string) (l : list string) :
  In x l -> JsString.includes needle x = true ->
  JsString.includes needle (JsString.join l) = true.
Proof.
  intros Hin Hx. apply in_split in Hin as (l1 & l2 & ->).
  rewrite join_app.
  change (JsString.join (x :: l2)) with (x +:+ JsString.join l2).
  apply includes_iff_append in Hx as (before & after & ->).
  apply includes_iff_append.
  exists (JsString.join l1 +:+ before), (after +:+ JsString.join l2).
  now rewrite !append_assoc.
Qed.

(** ** Icons and recommendations *)

Section Recommendations.

Import JsString.

Lemma messages_distinct :
  NEA.msg_severe <> NEA.msg_gear /\ NEA.msg_severe <> NEA.msg_heat /\
  NEA.msg_severe <> NEA.msg_perfect /\ NEA.msg_severe <> NEA.msg_good /\
  NEA.msg_gear <> NEA.msg_heat /\ NEA.msg_heat <> NEA.msg_perfect.
Proof. repeat split; discriminate. Qed.

Lemma severe_when_thunder (d : NEA.DayForecast) :
  includes "thunder" (toLowerCase (NEA.forecast d)) = true ->
  NEA.getCleanupRecommendation d = NEA.msg_severe.
Proof. intros H. unfold NEA.getCleanupRecommendation. now rewrite H. Qed.

Lemma string_eqb_false (a b : string) : a <> b -> String.eqb a b = false.
Proof. intros H. now apply String.eqb_neq. Qed.

(** C1, as amended.  In the NEA variant a condition text that mentions
    both thunder and sunny, in any letter case, gets the severe-weather
    message and not the positive one.  The OpenWeatherMap variant does
    not search the text: unless the condition is exactly Rain or
    Thunderstorm, its message follows from the temperature alone. *)
Theorem recommendation_precedence_thunder_over_sunny :
  (forall (d : NEA.DayForecast) (thunder sunny : string),
      toLowerCase thunder = "thunder" ->
      toLowerCase sunny = "sunny" ->
      includes thunder (NEA.forecast d) = true ->
      includes sunny (NEA.forecast d) = true ->
      NEA.getCleanupRecommendation d = NEA.msg_severe /\
      NEA.getCleanupRecommendation d <> NEA.msg_perfect) /\
  (forall (w : OWM.WeatherData) (first : OWM.Weather.t) (others : list OWM.Weather.t),
      OWM.weather w = first :: others ->
      OWM.Weather.main first <> "Rain" ->
      OWM.Weather.main first <> "Thunderstorm" ->
      OWM.getWeatherRecommendation w = Ok (byTemperature (OWM.temp (OWM.main w)))).
Proof.
  split.
  - intros d thunder sunny Ht _ Hin _.
    apply includes_toLowerCase in Hin. rewrite Ht in Hin.
    rewrite (severe_when_thunder d Hin).
    split; [reflexivity | apply messages_distinct].
  - intros w first others Hw Hrain Hthunder.
    unfold OWM.getWeatherRecommendation, byTemperature. rewrite Hw. simpl.
    rewrite (string_eqb_false _ _ Hrain), (string_eqb_false _ _ Hthunder). simpl.
    destruct (OWM.Qltb 30 _); [reflexivity|].
    destruct (OWM.Qltb _ 15); reflexivity.
Qed.

Lemma recommendation_precedence_thunder_over_sunny_witness :
  NEA.getCleanupRecommendation (day "Sunny Intervals, THUNDERY Showers" 31) = NEA.msg_severe /\
  OWM.getWeatherRecommendation (reading "Clouds" 12) = Ok OWM.msg_chilly.
Proof.
  destruct recommendation_precedence_thunder_over_sunny as [Hnea Howm].
  split.
  - apply (Hnea (day "Sunny Intervals, THUNDERY Showers" 31) "THUNDER" "Sunny");
      reflexivity.
  - apply (Howm (reading "Clouds" 12) _ _ eq_refl); discriminate.
Defined.

(** C1, as stated, fails in the OpenWeatherMap variant: a condition text
    with both words is neither Rain nor Thunderstorm, and at 24 degrees
    the positive message comes out. *)
Lemma owm_thunder_and_sunny_gets_positive_message :
  includes "thunder" (toLowerCase "Sunny, later thunder") = true /\
  includes "sunny" (toLowerCase "Sunny, later thunder") = true /\
  OWM.getWeatherRecommendation (reading "Sunny, later thunder" 24) = Ok OWM.msg_perfect /\
  OWM.msg_perfect <> OWM.msg_not_ideal.
Proof. repeat split; discriminate. Qed.

Lemma gear_when_rain (d : NEA.DayForecast) :
  includes "thunder" (toLowerCase (NEA.forecast d)) = false ->
  includes "heavy rain" (toLowerCase (NEA.forecast d)) = false ->
  includes "shower" (toLowerCase (NEA.forecast d)) = true \/
  includes "rain" (toLowerCase (NEA.forecast d)) = true ->
  NEA.getCleanupRecommendation d = NEA.msg_gear.
Proof.
  intros Ht Hh Hr. unfold NEA.getCleanupRecommendation. rewrite Ht, Hh. simpl.
  destruct Hr as [-> | ->]; [reflexivity | now rewrite orb_true_r].
Qed.

(** C5, as amended.  For the text Heavy Rain Shower with a high of 29
    the severe-weather message is returned, because the text mentions
    heavy rain and that check comes first.  The rain check does precede
    the heat check: a text that mentions rain or shower, and neither
    thunder nor heavy rain, gets the gear warning whatever the
    temperature. *)
Theorem recommendation_heavy_rain_shower (d : NEA.DayForecast) :
  (NEA.forecast d = "Heavy Rain Shower" ->
   NEA.getCleanupRecommendation d = NEA.msg_severe) /\
  (includes "thunder" (toLowerCase (NEA.forecast d)) = false ->
   includes "heavy rain" (toLowerCase (NEA.forecast d)) = false ->
   includes "shower" (toLowerCase (NEA.forecast d)) = true \/
   includes "rain" (toLowerCase (NEA.forecast d)) = true ->
   NEA.getCleanupRecommendation d = NEA.msg_gear /\
   NEA.getCleanupRecommendation d <> NEA.msg_heat).
Proof.
  split.
  - intros H. unfold NEA.getCleanupRecommendation. now rewrite H.
  - intros Ht Hh Hr. rewrite (gear_when_rain d Ht Hh Hr).
    split; [reflexivity | apply messages_distinct].
Qed.

Lemma recommendation_heavy_rain_shower_witness :
  NEA.getCleanupRecommendation (day "Heavy Rain Shower" 29) = NEA.msg_severe /\
  NEA.getCleanupRecommendation (day "Light Rain Shower" 35) = NEA.msg_gear.
Proof.
  split.
  - apply (recommendation_heavy_rain_shower (day "Heavy Rain Shower" 29)). reflexivity.
  - apply (recommendation_heavy_rain_shower (day "Light Rain Shower" 35));
      (reflexivity || (left; reflexivity)).
Defined.

(** C5, as stated, fails: the result is the severe-weather message,
    not the gear warning. *)
Lemma heavy_rain_shower_is_not_gear_warning :
  NEA.getCleanupRecommendation (day "Heavy Rain Shower" 29) = NEA.msg_severe /\
  NEA.getCleanupRecommendation (day "Heavy Rain Shower" 29) <> NEA.msg_gear.
Proof. split; [reflexivity | discriminate]. Qed.

(** C6.  The text Clear with a high of 34 gets the heat warning, in
    both variants. *)
Theorem recommendation_clear_34 (d : NEA.DayForecast) (w : OWM.WeatherData)
    (first : OWM.Weather.t) (others : list OWM.Weather.t) :
  NEA.forecast d = "Clear" ->
  NEA.high (NEA.temperature d) = 34%Z ->
  OWM.weather w = first :: others ->
  OWM.Weather.main first = "Clear" ->
  (OWM.temp (OWM.main w) == 34)%Q ->
  NEA.getCleanupRecommendation d = NEA.msg_heat /\
  OWM.getWeatherRecommendation w = Ok OWM.msg_hot.
Proof.
  intros Hf Hh Hw Hc Ht. split.
  - unfold NEA.getCleanupRecommendation. now rewrite Hf, Hh.
  - unfold OWM.getWeatherRecommendation. rewrite Hw. simpl. rewrite Hc. simpl.
    unfold OWM.Qltb. destruct (Qle_bool _ 30) eqn:E; [|reflexivity].
    apply Qle_bool_iff in E. rewrite Ht in E. now compute in E.
Qed.

Lemma recommendation_clear_34_witness :
  NEA.getCleanupRecommendation (day "Clear" 34) = NEA.msg_heat /\
  OWM.getWeatherRecommendation (reading "Clear" 34) = Ok OWM.msg_hot.
Proof.
  apply (recommendation_clear_34 (day "Clear" 34) (reading "Clear" 34) _ _
           eq_refl eq_refl eq_refl eq_refl (Qeq_refl 34)).
Defined.

(** The heat rule does come before the fair/sunny rule: a dry text with
    a high above 32 gets the heat warning even when it says sunny. *)
Lemma heat_before_sunny (d : NEA.DayForecast) :
  includes "thunder" (toLowerCase (NEA.forecast d)) = false ->
  includes "heavy rain" (toLowerCase (NEA.forecast d)) = false ->
  includes "shower" (toLowerCase (NEA.forecast d)) = false ->
  includes "rain" (toLowerCase (NEA.forecast d)) = false ->
  (32 < NEA.high (NEA.temperature d))%Z ->
  NEA.getCleanupRecommendation d = NEA.msg_heat.
Proof.
  intros Ht Hh Hs Hr Hhigh. unfold NEA.getCleanupRecommendation.
  rewrite Ht, Hh, Hs, Hr. simpl.
  now apply Z.ltb_lt in Hhigh as ->.
Qed.

Lemma icons_distinct :
  NEA.icon_thunder <> NEA.icon_partly_cloudy /\
  NEA.icon_rain <> NEA.icon_partly_cloudy /\
  NEA.icon_cloudy <> NEA.icon_partly_cloudy /\
  NEA.icon_sunny <> NEA.icon_partly_cloudy /\
  NEA.icon_hazy <> NEA.icon_partly_cloudy /\
  NEA.icon_default <> NEA.icon_partly_cloudy /\
  NEA.icon_thunder <> NEA.icon_cloudy /\
  NEA.icon_rain <> NEA.icon_cloudy.
Proof. repeat split; discriminate. Qed.

Lemma cloudy_within_partly_cloudy (s : string) :
  includes "partly cloudy" s = true -> includes "cloudy" s = true.
Proof. apply includes_within. reflexivity. Qed.

(** C10, as amended.  [getWeatherIcon] never returns the partly-cloudy
    icon: a text that contains partly cloudy also contains cloudy, so
    the cloudy rule or an earlier one captures it.  Such a text gets the
    thunder icon when it mentions thunder, otherwise the rain icon when
    it mentions rain or shower, and otherwise the plain cloudy icon. *)
Theorem getWeatherIcon_never_partly_cloudy (forecast : string) :
  NEA.getWeatherIcon forecast <> NEA.icon_partly_cloudy /\
  (includes "partly cloudy" (toLowerCase forecast) = true ->
   includes "cloudy" (toLowerCase forecast) = true /\
   (includes "thunder" (toLowerCase forecast) = true ->
    NEA.getWeatherIcon forecast = NEA.icon_thunder) /\
   (includes "thunder" (toLowerCase forecast) = false ->
    includes "rain" (toLowerCase forecast) = true \/
    includes "shower" (toLowerCase forecast) = true ->
    NEA.getWeatherIcon forecast = NEA.icon_rain) /\
   (includes "thunder" (toLowerCase forecast) = false ->
    includes "rain" (toLowerCase forecast) = false ->
    includes "shower" (toLowerCase forecast) = false ->
    NEA.getWeatherIcon forecast = NEA.icon_cloudy)).
Proof.
  pose proof (cloudy_within_partly_cloudy (toLowerCase forecast)) as Hsub.
  unfold NEA.getWeatherIcon.
  destruct (includes "thunder" _) eqn:Ht; simpl.
  { split; [apply icons_distinct | intros Hp; repeat split; auto; discriminate]. }
  destruct (includes "rain" _) eqn:Hr; simpl.
  { split; [apply icons_distinct | intros Hp; repeat split; auto; discriminate]. }
  destruct (includes "shower" _) eqn:Hs; simpl.
  { split; [apply icons_distinct | intros Hp; repeat split; auto; discriminate]. }
  destruct (includes "cloudy" _) eqn:Hc.
  { split; [apply icons_distinct|]. intros Hp. repeat split; auto; try discriminate.
    intros _ [H | H]; discriminate H. }
  destruct (includes "partly cloudy" _) eqn:Hp.
  { specialize (Hsub eq_refl). discriminate Hsub. }
  split; [|discriminate].
  destruct (includes "fair" _ || includes "sunny" _); [apply icons_distinct|].
  destruct (includes "hazy" _); apply icons_distinct.
Qed.

Lemma getWeatherIcon_never_partly_cloudy_witness :
  NEA.getWeatherIcon "Partly Cloudy (Day)" = NEA.icon_cloudy /\
  NEA.getWeatherIcon "Partly Cloudy, Thundery Showers" = NEA.icon_thunder /\
  NEA.getWeatherIcon "Partly Cloudy with Showers" = NEA.icon_rain.
Proof.
  split; [|split].
  - destruct (getWeatherIcon_never_partly_cloudy "Partly Cloudy (Day)") as [_ H].
    destruct (H eq_refl) as (_ & _ & _ & Hcloudy). apply Hcloudy; reflexivity.
  - destruct (getWeatherIcon_never_partly_cloudy "Partly Cloudy, Thundery Showers")
      as [_ H].
    destruct (H eq_refl) as (_ & Hthunder & _). apply Hthunder. reflexivity.
  - destruct (getWeatherIcon_never_partly_cloudy "Partly Cloudy with Showers") as [_ H].
    destruct (H eq_refl) as (_ & _ & Hrain & _). apply Hrain; [reflexivity|].
    right. reflexivity.
Defined.

(** C10, as stated, fails in its last clause: a text with partly cloudy
    and thundery showers gets the thunder icon, not the cloudy one. *)
Lemma partly_cloudy_with_thunder_gets_thunder_icon :
  includes "partly cloudy" (toLowerCase "Partly Cloudy, Thundery Showers") = true /\
  NEA.getWeatherIcon "Partly Cloudy, Thundery Showers" = NEA.icon_thunder /\
  NEA.getWeatherIcon "Partly Cloudy, Thundery Showers" <> NEA.icon_cloudy.
Proof. repeat split; discriminate. Qed.

End Recommendations.

(** ** The storage blob *)

Section StorageBlob.

Implicit Types (key : string) (data : json) (ls : LocalStorage).

Lemma assignProperty_same (m : gmap string json) key data :
  key <> "__proto__" \/ is_Some (m !! key) ->
  assignProperty m key data !! key = Some data.
Proof.
  intros H. unfold assignProperty.
  destruct (m !! key) eqn:E.
  - apply lookup_insert_eq.
  - destruct H as [H | [x H]]; [|discriminate H].
    apply String.eqb_neq in H. rewrite H. apply lookup_insert_eq.
Qed.

Lemma assignProperty_other (m : gmap string json) key data (other : string) :
  other <> key -> assignProperty m key data !! other = m !! other.
Proof.
  intros H. unfold assignProperty.
  destruct (m !! key); [|destruct (String.eqb key "__proto__"); [reflexivity|]];
    now apply lookup_insert_ne.
Qed.

Lemma assignProperty_twice (m : gmap string json) key data :
  assignProperty (assignProperty m key data) key data = assignProperty m key data.
Proof.
  unfold assignProperty.
  destruct (m !! key) eqn:E.
  - rewrite lookup_insert_eq. apply insert_insert_eq.
  - destruct (String.eqb key "__proto__") eqn:P.
    + now rewrite E.
    + rewrite lookup_insert_eq. apply insert_insert_eq.
Qed.

(** What a call does, by cases on the store. *)
Lemma saveToStorage_cases key data ls :
  (exists m,
      denied ls = false /\ full ls = false /\
      JSON_parse_or_empty (items ls !! storageKey) = Ok m /\
      saveToStorage key data ls =
        ({| items := <[storageKey := ObjectText (assignProperty m key data)]> (items ls);
            denied := false; full := false |}, true)) \/
  ((denied ls = true \/ full ls = true \/ items ls !! storageKey = Some NotJson) /\
   saveToStorage key data ls = (ls, false)).
Proof.
  unfold saveToStorage, getItem, setItem.
  destruct (denied ls) eqn:D; [right; auto|]. simpl.
  destruct (items ls !! storageKey) as [[|m]|] eqn:I; simpl.
  - right; auto.
  - destruct (full ls) eqn:F; [right; auto|]. left. exists m. auto.
  - destruct (full ls) eqn:F; [right; auto|]. left. exists ∅. auto.
Qed.

Lemma blob_parse ls (m : gmap string json) :
  JSON_parse_or_empty (items ls !! storageKey) = Ok m -> default ∅ (blob ls) = m.
Proof.
  unfold blob. destruct (items ls !! storageKey) as [[|m']|]; simpl; congruence.
Qed.

(** C9, as amended.  When [saveToStorage key data] succeeds on a store
    whose blob is absent or an object, the blob becomes an object that
    maps [key] to [data] and keeps every other entry, provided [key] is
    not the name __proto__ (or the blob already has an entry of that
    name); the other items of the store stay as they were.  On a
    storage error the call returns false and the store is unchanged. *)
Theorem saveToStorage_frame key data ls ls' (saved : bool) :
  saveToStorage key data ls = (ls', saved) ->
  (saved = true ->
   key <> "__proto__" \/ is_Some (default ∅ (blob ls) !! key) ->
   exists m' : gmap string json,
     blob ls' = Some m' /\
     m' !! key = Some data /\
     (forall other : string, other <> key -> m' !! other = default ∅ (blob ls) !! other) /\
     (forall item : string, item <> storageKey -> items ls' !! item = items ls !! item)) /\
  (saved = false <->
   denied ls = true \/ full ls = true \/ items ls !! storageKey = Some NotJson) /\
  (saved = false -> ls' = ls).
Proof.
  intros Hcall.
  destruct (saveToStorage_cases key data ls)
    as [(m & D & F & Hparse & Heq) | (Herr & Heq)];
    rewrite Heq in Hcall; injection Hcall as <- <-.
  - split; [|split; [split|]]; try discriminate.
    + intros _ Hkey. rewrite (blob_parse ls m Hparse) in *.
      exists (assignProperty m key data). repeat split.
      * unfold blob. simpl. now rewrite lookup_insert_eq.
      * now apply assignProperty_same.
      * intros other Hne. now apply assignProperty_other.
      * intros item Hne. simpl. now apply lookup_insert_ne.
    + intros [H | [H | H]]; [congruence | congruence |].
      rewrite H in Hparse. discriminate Hparse.
  - split; [discriminate|]. split; [split|]; auto.
Qed.

Lemma saveToStorage_frame_witness :
  exists m' : gmap string json,
    blob (fst (saveToStorage "userLocation" (JStr "1.30,103.85") emptyStore)) = Some m' /\
    m' !! "userLocation" = Some (JStr "1.30,103.85").
Proof.
  destruct (saveToStorage_frame "userLocation" (JStr "1.30,103.85") emptyStore
              (fst (saveToStorage "userLocation" (JStr "1.30,103.85") emptyStore))
              true eq_refl) as [Hsaved _].
  destruct (Hsaved eq_refl) as (m' & Hb & Hk & _).
  - left. discriminate.
  - exists m'. split; assumption.
Defined.

(** C9, as stated, fails for the key __proto__: the call succeeds, and
    the blob it leaves has no entry of that name. *)
Lemma saveToStorage_proto_not_stored :
  snd (saveToStorage "__proto__" (JObj {[ "lat" := JNum 1 ]}) emptyStore) = true /\
  blob (fst (saveToStorage "__proto__" (JObj {[ "lat" := JNum 1 ]}) emptyStore)) = Some ∅ /\
  (∅ : gmap string json) !! "__proto__" = None.
Proof. repeat split. Qed.

(** Saving the same entry again changes nothing more. *)
Lemma saveToStorage_again key data ls :
  saveToStorage key data (fst (saveToStorage key data ls)) = saveToStorage key data ls.
Proof.
  destruct (saveToStorage_cases key data ls)
    as [(m & D & F & Hparse & Heq) | (_ & Heq)]; rewrite Heq; simpl; [|exact Heq].
  unfold saveToStorage, getItem, setItem. simpl.
  rewrite lookup_insert_eq. simpl.
  now rewrite assignProperty_twice, insert_insert_eq.
Qed.

End StorageBlob.

(** ** The weather pipeline *)

(** Case analysis on what a source did. *)
Ltac by_outcome outcome :=
  destruct outcome as [|[[|] [?data|]]]; simpl; try (discriminate || reflexivity).

Lemma outcome_cases {A} (outcome : FetchOutcome A) :
  rejects outcome = true \/ exists data, outcome = delivers data.
Proof.
  by_outcome outcome; auto.
  right. exists data. reflexivity.
Qed.

Lemma fetchWeatherForecast_rejects (outcome : FetchOutcome NEA.ForecastData) (pg : Page) :
  rejects outcome = true -> NEA.fetchWeatherForecast outcome pg = (pg, None).
Proof. by_outcome outcome. Qed.

Lemma fetchWeatherForecast_delivers (data : NEA.ForecastData) (pg : Page) :
  NEA.fetchWeatherForecast (delivers data) pg =
    ({| localStorage :=
          fst (saveToStorage "weatherForecast" (NEA.ForecastData_json data) (localStorage pg));
        currentWeather := NEA.ForecastData_json data;
        weatherWidget := weatherWidget pg |}, Some data).
Proof.
  unfold NEA.fetchWeatherForecast, delivers. simpl.
  now destruct (saveToStorage _ _ _).
Qed.

Lemma fetchCurrentTemp_rejects (outcome : FetchOutcome NEA.AirTemperature.Data) :
  rejects outcome = true -> NEA.fetchCurrentTemp outcome = None.
Proof. by_outcome outcome. Qed.

Lemma fetchWeatherData_rejects (lat lon : Q) (outcome : FetchOutcome OWM.WeatherData)
    (pg : Page) :
  rejects outcome = true ->
  OWM.fetchWeatherData lat lon outcome pg = (pg, OWM.getMockWeatherData).
Proof. by_outcome outcome. Qed.

Lemma readCurrentTemp_raises_iff (secondary : FetchOutcome NEA.AirTemperature.Data) :
  if emptyItems secondary
  then NEA.readCurrentTemp (NEA.fetchCurrentTemp secondary) = Throw TypeError
  else exists currentTemp, NEA.readCurrentTemp (NEA.fetchCurrentTemp secondary) = Ok currentTemp.
Proof.
  destruct secondary as [|[[|] [data|]]]; simpl; eauto.
  destruct (NEA.AirTemperature.items data) as [[|item0 rest]|]; simpl; eauto.
  destruct (NEA.AirTemperature.readings item0); eauto.
Qed.

(** A forecast card is its label, high temperature and description with
    fixed text around them. *)
Lemma cardHtml_split (dayName dateStr icon : string) (day : NEA.DayForecast) :
  NEA.cardHtml dayName dateStr icon day =
    cardStart +:+ dayLabel dayName +:+ cardAfterLabel dateStr icon +:+
    highSpan (NEA.high (NEA.temperature day)) +:+ cardAfterHigh day +:+
    descLine (NEA.forecast day) +:+ cardEnd day.
Proof.
  unfold NEA.cardHtml, cardStart, dayLabel, cardAfterLabel, highSpan, cardAfterHigh,
    descLine, cardEnd.
  rewrite !append_assoc. reflexivity.
Qed.

Lemma cardHtml_shows (dayName dateStr icon : string) (day : NEA.DayForecast) :
  JsString.includes (dayLabel dayName) (NEA.cardHtml dayName dateStr icon day) = true /\
  JsString.includes (highSpan (NEA.high (NEA.temperature day)))
    (NEA.cardHtml dayName dateStr icon day) = true /\
  JsString.includes (descLine (NEA.forecast day))
    (NEA.cardHtml dayName dateStr icon day) = true.
Proof.
  rewrite cardHtml_split. repeat split; apply includes_iff_append.
  - exists cardStart. eexists. reflexivity.
  - exists (cardStart +:+ dayLabel dayName +:+ cardAfterLabel dateStr icon). eexists.
    rewrite !append_assoc. reflexivity.
  - exists (cardStart +:+ dayLabel dayName +:+ cardAfterLabel dateStr icon +:+
            highSpan (NEA.high (NEA.temperature day)) +:+ cardAfterHigh day). eexists.
    rewrite !append_assoc. reflexivity.
Qed.

(** What the forecast grid contains, the widget contains. *)
Lemma widgetHtml_shows_cards (needle currentTempHtml forecastCards recommendation
    generalHtml : string) :
  JsString.includes needle forecastCards = true ->
  JsString.includes needle
    (NEA.widgetHtml currentTempHtml forecastCards recommendation generalHtml) = true.
Proof.
  intros H. unfold NEA.widgetHtml.
  repeat first [ apply includes_append_l; exact H | apply includes_append_r ].
Qed.

(** The success view and the failure view never coincide. *)
Lemma widgetHtml_not_failure (currentTempHtml forecastCards recommendation generalHtml : string) :
  NEA.widgetHtml currentTempHtml forecastCards recommendation generalHtml <> NEA.failureHtml.
Proof.
  intros H. apply (f_equal (String.get 18)) in H. cbv in H. discriminate H.
Qed.

Section Pipeline.

Variable weekdayOf : string -> option NEA.Weekday.
Variable monthDayOf : string -> string.

Let displayWeather := NEA.displayWeather weekdayOf monthDayOf.
Let forecastCard := NEA.forecastCard weekdayOf monthDayOf.

Lemma displayWeather_primary_rejects primary secondary (pg : Page) :
  rejects primary = true ->
  displayWeather primary secondary pg =
    {| localStorage := localStorage pg;
       currentWeather := currentWeather pg;
       weatherWidget := NEA.failureHtml |}.
Proof.
  intros H. unfold displayWeather, NEA.displayWeather.
  now rewrite (fetchWeatherForecast_rejects primary pg H).
Qed.

Lemma displayWeather_no_items (data : NEA.ForecastData) secondary (pg : Page) :
  NEA.items data = None \/ NEA.items data = Some [] ->
  displayWeather (delivers data) secondary pg =
    {| localStorage :=
         fst (saveToStorage "weatherForecast" (NEA.ForecastData_json data) (localStorage pg));
       currentWeather := NEA.ForecastData_json data;
       weatherWidget := NEA.failureHtml |}.
Proof.
  intros H. unfold displayWeather, NEA.displayWeather.
  rewrite fetchWeatherForecast_delivers. unfold NEA.renderWeather.
  now destruct H as [-> | ->].
Qed.

Lemma displayWeather_renders (data : NEA.ForecastData) (item0 : NEA.ForecastItem)
    (rest : list NEA.ForecastItem) (today : NEA.DayForecast) (later : list NEA.DayForecast)
    secondary (currentTemp : option Q) (pg : Page) :
  NEA.items data = Some (item0 :: rest) ->
  NEA.forecasts item0 = today :: later ->
  NEA.readCurrentTemp (NEA.fetchCurrentTemp secondary) = Ok currentTemp ->
  displayWeather (delivers data) secondary pg =
    {| localStorage :=
         fst (saveToStorage "weatherForecast" (NEA.ForecastData_json data) (localStorage pg));
       currentWeather := NEA.ForecastData_json data;
       weatherWidget :=
         NEA.widgetHtml (NEA.currentTempSlot currentTemp)
           (JsString.join (imap forecastCard (today :: later)))
           (NEA.getCleanupRecommendation today)
           (NEA.generalSlot (NEA.general item0)) |}.
Proof.
  intros Hitems Hdays Htemp. unfold displayWeather, NEA.displayWeather.
  rewrite fetchWeatherForecast_delivers. unfold NEA.renderWeather.
  rewrite Hitems. cbv beta iota zeta delta [bind]. rewrite Htemp, Hdays. reflexivity.
Qed.

(** The widget depends on the two responses only, not on the page the
    call starts from. *)
Lemma displayWeather_widget_pure primary secondary (pg pg' : Page) :
  weatherWidget (displayWeather primary secondary pg) =
  weatherWidget (displayWeather primary secondary pg').
Proof.
  unfold displayWeather, NEA.displayWeather.
  destruct (outcome_cases primary) as [H | [data ->]].
  - now rewrite !(fetchWeatherForecast_rejects primary _ H).
  - now rewrite !fetchWeatherForecast_delivers.
Qed.

Lemma displayWeather_again primary secondary (pg : Page) :
  displayWeather primary secondary (displayWeather primary secondary pg) =
  displayWeather primary secondary pg.
Proof.
  unfold displayWeather, NEA.displayWeather.
  destruct (outcome_cases primary) as [H | [data ->]].
  - now rewrite !(fetchWeatherForecast_rejects primary _ H).
  - rewrite !fetchWeatherForecast_delivers. simpl.
    now rewrite saveToStorage_again.
Qed.

End Pipeline.

(** ** Failure of the primary source *)

(** C2, as amended.  When the primary source rejects, [displayWeather]
    renders the failure view, which carries the retry button, and the
    store and the application state are what they were.  When the
    primary source delivers a document without items, the failure view is
    rendered as well, but the document has by then been saved under
    weatherForecast.  In the OpenWeatherMap variant a rejected source
    leaves the page untouched too, and the call returns the mock
    reading. *)
Theorem primary_failure_renders_retry
    (weekdayOf : string -> option NEA.Weekday) (monthDayOf : string -> string)
    (primary : FetchOutcome NEA.ForecastData)
    (secondary : FetchOutcome NEA.AirTemperature.Data) (pg : Page) :
  (rejects primary = true ->
   NEA.displayWeather weekdayOf monthDayOf primary secondary pg =
     {| localStorage := localStorage pg;
        currentWeather := currentWeather pg;
        weatherWidget := NEA.failureHtml |}) /\
  (forall data : NEA.ForecastData,
      primary = delivers data ->
      NEA.items data = None \/ NEA.items data = Some [] ->
      weatherWidget (NEA.displayWeather weekdayOf monthDayOf primary secondary pg)
        = NEA.failureHtml /\
      localStorage (NEA.displayWeather weekdayOf monthDayOf primary secondary pg)
        = fst (saveToStorage "weatherForecast" (NEA.ForecastData_json data)
                             (localStorage pg))) /\
  JsString.includes retryButton NEA.failureHtml = true /\
  (forall (lat lon : Q) (outcome : FetchOutcome OWM.WeatherData),
      rejects outcome = true ->
      OWM.fetchWeatherData lat lon outcome pg = (pg, OWM.getMockWeatherData)).
Proof.
  split; [apply displayWeather_primary_rejects|].
  split; [|split; [reflexivity|]].
  - intros data -> Hempty.
    now rewrite (displayWeather_no_items weekdayOf monthDayOf data secondary pg Hempty).
  - intros lat lon outcome H. now rewrite fetchWeatherData_rejects.
Qed.

Lemma primary_failure_renders_retry_witness :
  NEA.displayWeather fridays december
    (Resolved {| ok := false; body := None |}) (delivers (airTemperatureOf (284 # 10)))
    freshPage =
  {| localStorage := emptyStore; currentWeather := JNull; weatherWidget := NEA.failureHtml |}.
Proof.
  apply (primary_failure_renders_retry fridays december
           (Resolved {| ok := false; body := None |})
           (delivers (airTemperatureOf (284 # 10))) freshPage).
  reflexivity.
Defined.

(** C2, as stated, fails when the primary source returns empty data: the
    failure view is rendered, and the store, empty before the call, now
    holds the empty document. *)
Lemma empty_forecast_is_saved_before_failure :
  weatherWidget (NEA.displayWeather fridays december
                   (delivers {| NEA.items := Some [] |}) Rejected freshPage)
    = NEA.failureHtml /\
  blob (localStorage freshPage) = None /\
  blob (localStorage (NEA.displayWeather fridays december
                        (delivers {| NEA.items := Some [] |}) Rejected freshPage))
    = Some {[ "weatherForecast" := JObj {[ "items" := JArr [] ]} ]}.
Proof. repeat split. Qed.

(** ** Failure of the secondary source *)

(** C3.  When the secondary source rejects and the primary one delivers
    a forecast, the call renders the success view and nothing is raised.
    The field of the secondary source is left out, and the temperature
    of the view is the high of the first entry of the primary source: it
    is shown in the card labelled Today, and the recommendation is a
    function of the text and of that high alone. *)
Theorem secondary_failure_is_absorbed
    (weekdayOf : string -> option NEA.Weekday) (monthDayOf : string -> string)
    (data : NEA.ForecastData) (item0 : NEA.ForecastItem) (rest : list NEA.ForecastItem)
    (today : NEA.DayForecast) (later : list NEA.DayForecast)
    (secondary : FetchOutcome NEA.AirTemperature.Data) (pg : Page) :
  rejects secondary = true ->
  NEA.items data = Some (item0 :: rest) ->
  NEA.forecasts item0 = today :: later ->
  NEA.readCurrentTemp (NEA.fetchCurrentTemp secondary) = Ok None /\
  weatherWidget (NEA.displayWeather weekdayOf monthDayOf (delivers data) secondary pg)
    = NEA.widgetHtml EmptyString
        (JsString.join (imap (NEA.forecastCard weekdayOf monthDayOf) (today :: later)))
        (NEA.getCleanupRecommendation today)
        (NEA.generalSlot (NEA.general item0)) /\
  weatherWidget (NEA.displayWeather weekdayOf monthDayOf (delivers data) secondary pg)
    <> NEA.failureHtml /\
  imap (NEA.forecastCard weekdayOf monthDayOf) (today :: later) !! 0%nat
    = Some (NEA.cardHtml "Today" (monthDayOf (NEA.date today))
              (NEA.getWeatherIcon (NEA.forecast today)) today) /\
  JsString.includes (dayLabel "Today")
    (weatherWidget (NEA.displayWeather weekdayOf monthDayOf (delivers data) secondary pg))
    = true /\
  JsString.includes (highSpan (NEA.high (NEA.temperature today)))
    (weatherWidget (NEA.displayWeather weekdayOf monthDayOf (delivers data) secondary pg))
    = true /\
  (forall other : NEA.DayForecast,
      NEA.forecast other = NEA.forecast today ->
      NEA.high (NEA.temperature other) = NEA.high (NEA.temperature today) ->
      NEA.getCleanupRecommendation other = NEA.getCleanupRecommendation today).
Proof.
  intros Hsec Hitems Hdays.
  assert (Htemp : NEA.readCurrentTemp (NEA.fetchCurrentTemp secondary) = Ok None)
    by now rewrite fetchCurrentTemp_rejects.
  rewrite (displayWeather_renders weekdayOf monthDayOf data item0 rest today later
             secondary None pg Hitems Hdays Htemp).
  destruct (cardHtml_shows "Today" (monthDayOf (NEA.date today))
              (NEA.getWeatherIcon (NEA.forecast today)) today) as (Hlabel & Hhigh & _).
  assert (Hgrid : forall needle,
             JsString.includes needle
               (NEA.cardHtml "Today" (monthDayOf (NEA.date today))
                  (NEA.getWeatherIcon (NEA.forecast today)) today) = true ->
             JsString.includes needle
               (JsString.join (imap (NEA.forecastCard weekdayOf monthDayOf)
                                 (today :: later))) = true).
  { intros needle H. rewrite imap_cons.
    apply (includes_join needle (NEA.forecastCard weekdayOf monthDayOf 0 today));
      [left; reflexivity | exact H]. }
  cbn [weatherWidget].
  split; [exact Htemp|]. split; [reflexivity|].
  split; [apply widgetHtml_not_failure|]. split; [reflexivity|].
  split; [apply widgetHtml_shows_cards, Hgrid, Hlabel|].
  split; [apply widgetHtml_shows_cards, Hgrid, Hhigh|].
  intros other Htext Hhighs. unfold NEA.getCleanupRecommendation.
  now rewrite Htext, Hhighs.
Qed.

Lemma secondary_failure_is_absorbed_witness :
  weatherWidget (NEA.displayWeather fridays december
                   (delivers (forecastOf [day "Fair (Day)" 31; day "Showers" 30]))
                   Rejected freshPage)
    <> NEA.failureHtml /\
  JsString.includes (highSpan 31)
    (weatherWidget (NEA.displayWeather fridays december
                      (delivers (forecastOf [day "Fair (Day)" 31; day "Showers" 30]))
                      Rejected freshPage))
    = true.
Proof.
  destruct (secondary_failure_is_absorbed fridays december
              (forecastOf [day "Fair (Day)" 31; day "Showers" 30]) _ [] _ _
              Rejected freshPage eq_refl eq_refl eq_refl)
    as (_ & _ & Hview & _ & _ & Hhigh & _).
  split; [exact Hview | exact Hhigh].
Defined.

(** With the secondary source down, the widget has no
    current-temperature element. *)
Example secondary_failure_omits_current_temperature :
  NEA.readCurrentTemp (NEA.fetchCurrentTemp Rejected) = Ok None /\
  JsString.includes "Current:"
    (weatherWidget (NEA.displayWeather fridays december
                      (delivers (forecastOf [day "Fair (Day)" 31])) Rejected freshPage))
    = false.
Proof. split; [reflexivity | vm_compute; reflexivity]. Qed.

(** With the secondary source up, the element is there. *)
Example secondary_success_shows_current_temperature :
  JsString.includes "Current: 28"
    (weatherWidget (NEA.displayWeather fridays december
                      (delivers (forecastOf [day "Fair (Day)" 31]))
                      (delivers (airTemperatureOf (284 # 10))) freshPage))
    = true.
Proof. vm_compute. reflexivity. Qed.

(** ** The forecast cards *)





(** ** Idempotence *)

(** C7.  Running the pipeline twice in sequence on the same pair of
    responses renders the same widget: the second run leaves the whole
    page, store included, as the first run left it, and the widget does
    not depend on the page the run starts from.  The recommendation is
    read off the first forecast entry alone. *)
Theorem pipeline_is_idempotent
    (weekdayOf : string -> option NEA.Weekday) (monthDayOf : string -> string)
    (primary : FetchOutcome NEA.ForecastData)
    (secondary : FetchOutcome NEA.AirTemperature.Data) (pg pg' : Page) :
  let once := NEA.displayWeather weekdayOf monthDayOf primary secondary pg in
  let twice := NEA.displayWeather weekdayOf monthDayOf primary secondary once in
  weatherWidget twice = weatherWidget once /\
  twice = once /\
  weatherWidget (NEA.displayWeather weekdayOf monthDayOf primary secondary pg')
    = weatherWidget once.
Proof.
  intros once twice. subst once twice.
  rewrite displayWeather_again.
  repeat split. apply displayWeather_widget_pure.
Qed.

(** ** The mock fallback of the OpenWeatherMap variant *)

(** C8.  [fetchWeatherData] returns the mock reading (Sample Beach, 24
    degrees, Clear) for every failure mode: a rejected request, a
    response that is not ok, a body that is not JSON.  The page is left
    as it was, and what the caller gets is what a successful response
    carrying the same reading would have given; it gets a recommendation
    without error. *)
Theorem fetchWeatherData_falls_back_to_mock (lat lon : Q) (pg : Page) :
  OWM.fetchWeatherData lat lon Rejected pg = (pg, OWM.getMockWeatherData) /\
  (forall body : option OWM.WeatherData,
      OWM.fetchWeatherData lat lon (Resolved {| ok := false; body := body |}) pg
        = (pg, OWM.getMockWeatherData)) /\
  OWM.fetchWeatherData lat lon (Resolved {| ok := true; body := None |}) pg
    = (pg, OWM.getMockWeatherData) /\
  (forall outcome : FetchOutcome OWM.WeatherData,
      rejects outcome = true ->
      snd (OWM.fetchWeatherData lat lon outcome pg)
        = snd (OWM.fetchWeatherData lat lon (delivers OWM.getMockWeatherData) pg)) /\
  OWM.name OWM.getMockWeatherData = "Sample Beach" /\
  OWM.temp (OWM.main OWM.getMockWeatherData) = 24%Q /\
  OWM.Weather.main <$> OWM.weather OWM.getMockWeatherData = ["Clear"] /\
  OWM.getWeatherRecommendation OWM.getMockWeatherData = Ok OWM.msg_perfect.
Proof.
  repeat split.
  intros outcome H. rewrite fetchWeatherData_rejects by assumption.
  unfold OWM.fetchWeatherData, delivers. simpl.
  now destruct (saveToStorage _ _ _).
Qed.

Lemma fetchWeatherData_falls_back_to_mock_witness :
  snd (OWM.fetchWeatherData 1 103 (Resolved {| ok := false; body := Some (reading "Rain" 26) |})
         freshPage)
    = snd (OWM.fetchWeatherData 1 103 (delivers OWM.getMockWeatherData) freshPage).
Proof.
  apply (fetchWeatherData_falls_back_to_mock 1 103 freshPage). reflexivity.
Defined.

(** ** Saving and loading *)

Section SaveAndLoad.

Implicit Types (key other : string) (data : json) (ls : LocalStorage).

Lemma assignProperty_lookup (m : gmap string json) key data other :
assignProperty m key data !! other =
  if decide (other = key)
  then match m !! key with
       | None => if String.eqb key "__proto__" then None else Some data
       | Some _ => Some data
       end
  else m !! other.
Proof.
destruct (decide (other = key)) as [->|Hne].
- unfold assignProperty. destruct (m !! key) eqn:E.
  + apply lookup_insert_eq.
  + destruct (String.eqb key "__proto__"); [exact E | apply lookup_insert_eq].
- now apply assignProperty_other.
Qed.

Lemma assignProperty_overwrite (m : gmap string json) key (first second : json) :
assignProperty (assignProperty m key first) key second = assignProperty m key second.
Proof.
apply map_eq. intros j. rewrite !assignProperty_lookup.
repeat case_decide; subst; try congruence.
destruct (m !! key); [reflexivity|].
destruct (String.eqb key "__proto__"); reflexivity.
Qed.

Lemma assignProperty_commute (m : gmap string json) (k1 k2 : string) (v1 v2 : json) :
k1 <> k2 ->
assignProperty (assignProperty m k1 v1) k2 v2 = assignProperty (assignProperty m k2 v2) k1 v1.
Proof.
intros Hne. apply map_eq. intros j. rewrite !assignProperty_lookup.
repeat case_decide; subst; congruence.
Qed.

Lemma saveToStorage_succeeds_iff key data ls :
snd (saveToStorage key data ls) = writable ls.
Proof.
unfold writable, readable.
destruct (saveToStorage_cases key data ls)
  as [(m & D & F & Hparse & Heq) | ([D | [F | I]] & Heq)]; rewrite Heq; simpl.
- rewrite D, F. destruct (items ls !! storageKey) as [[|?]|]; [discriminate|reflexivity..].
- now rewrite D.
- rewrite F. now rewrite andb_false_r.
- rewrite I. now rewrite andb_false_r.
Qed.

Lemma writable_of_saved key data ls :
snd (saveToStorage key data ls) = true -> writable ls = true.
Proof. now rewrite saveToStorage_succeeds_iff. Qed.

Lemma saveToStorage_writable key data ls :
writable ls = true ->
saveToStorage key data ls =
  ({| items := <[storageKey := ObjectText (assignProperty (default ∅ (blob ls)) key data)]>
                 (items ls);
      denied := false; full := false |}, true).
Proof.
intros Hw.
destruct (saveToStorage_cases key data ls)
  as [(m & D & F & Hparse & Heq) | (_ & Heq)].
- now rewrite (blob_parse ls m Hparse).
- pose proof (saveToStorage_succeeds_iff key data ls) as H.
  rewrite Heq, Hw in H. discriminate H.
Qed.

Lemma saveToStorage_not_writable key data ls :
writable ls = false -> saveToStorage key data ls = (ls, false).
Proof.
intros Hw.
destruct (saveToStorage_cases key data ls)
  as [(m & D & F & Hparse & Heq) | (_ & Heq)]; [|exact Heq].
pose proof (saveToStorage_succeeds_iff key data ls) as H.
rewrite Heq, Hw in H. discriminate H.
Qed.

Lemma writable_after_save key data ls :
writable ls = true -> writable (fst (saveToStorage key data ls)) = true.
Proof.
intros Hw. rewrite (saveToStorage_writable key data ls Hw).
unfold writable, readable. simpl. now rewrite lookup_insert_eq.
Qed.

Lemma blob_after_save key data ls :
writable ls = true ->
blob (fst (saveToStorage key data ls)) = Some (assignProperty (default ∅ (blob ls)) key data).
Proof.
intros Hw. rewrite (saveToStorage_writable key data ls Hw).
unfold blob. simpl. now rewrite lookup_insert_eq.
Qed.

Lemma loadFromStorage_readable key ls :
readable ls = true ->
loadFromStorage key ls =
  let stored := getProperty (default ∅ (blob ls)) key in
  if truthy stored then stored else Value JNull.
Proof.
unfold readable, loadFromStorage, getItem, blob.
destruct (denied ls); [discriminate|].
destruct (items ls !! storageKey) as [[|m]|]; simpl; (discriminate || reflexivity).
Qed.

Lemma loadFromStorage_unreadable key ls :
readable ls = false -> loadFromStorage key ls = Value JNull.
Proof.
unfold readable, loadFromStorage, getItem.
destruct (denied ls); [reflexivity|].
destruct (items ls !! storageKey) as [[|m]|]; simpl; (discriminate || reflexivity).
Qed.

Lemma readable_of_writable ls : writable ls = true -> readable ls = true.
Proof. unfold writable. now intros [H _]%andb_true_iff. Qed.

Lemma load_after_save key data ls ls' :
saveToStorage key data ls = (ls', true) ->
key <> "__proto__" \/ is_Some (default ∅ (blob ls) !! key) ->
loadFromStorage key ls' = if truthy_json data then Value data else Value JNull.
Proof.
intros Hsave Hkey.
assert (Hw : writable ls = true).
{ rewrite <- (saveToStorage_succeeds_iff key data ls). now rewrite Hsave. }
assert (Hls : ls' = fst (saveToStorage key data ls)) by now rewrite Hsave.
rewrite Hls, loadFromStorage_readable
  by (apply readable_of_writable, writable_after_save, Hw).
rewrite (blob_after_save key data ls Hw). simpl.
unfold getProperty. now rewrite (assignProperty_same _ key data Hkey).
Qed.


(** X1.  What was saved is what is loaded.  On a store whose item is
  absent or holds a JSON object: after [saveToStorage key data] has
  returned true, [loadFromStorage key] returns [data], or [null] when
  [data] is a falsy value (null, false, 0, the empty string).  The name
  __proto__ is excepted unless the object has an entry of that name. *)
Theorem loadFromStorage_after_save key data ls ls' :
saveToStorage key data ls = (ls', true) ->
key <> "__proto__" \/ is_Some (default ∅ (blob ls) !! key) ->
loadFromStorage key ls' = if truthy_json data then Value data else Value JNull.
Proof. apply load_after_save. Qed.

Lemma loadFromStorage_after_save_witness :
loadFromStorage "userLocation"
  (fst (saveToStorage "userLocation" (JStr "1.30,103.85") emptyStore))
  = Value (JStr "1.30,103.85").
Proof.
apply (loadFromStorage_after_save "userLocation" (JStr "1.30,103.85") emptyStore _ eq_refl).
left. discriminate.
Defined.

(** X2.  On a store whose item is absent, is not JSON or holds a JSON
  object: for a key the object has no entry for, [loadFromStorage]
  returns [null], also when the store cannot be read, with one
  exception: on a readable store a key that names a member of
  [Object.prototype] returns that inherited member. *)
Theorem loadFromStorage_missing_key key ls :
default ∅ (blob ls) !! key = None ->
loadFromStorage key ls =
  if readable ls && isInherited key then Inherited key else Value JNull.
Proof.
intros Hnone. destruct (readable ls) eqn:Hr; simpl.
- rewrite (loadFromStorage_readable key ls Hr). simpl.
  unfold getProperty. rewrite Hnone. now destruct (isInherited key).
- now apply loadFromStorage_unreadable.
Qed.

Lemma loadFromStorage_missing_key_witness :
loadFromStorage "currentWeather" emptyStore = Value JNull /\
loadFromStorage "toString" emptyStore = Inherited "toString".
Proof.
split.
- apply (loadFromStorage_missing_key "currentWeather" emptyStore). reflexivity.
- apply (loadFromStorage_missing_key "toString" emptyStore). reflexivity.
Defined.

Lemma load_other_key key other data ls :
other <> key ->
loadFromStorage other (fst (saveToStorage key data ls)) = loadFromStorage other ls.
Proof.
intros Hne. destruct (writable ls) eqn:Hw.
- rewrite !loadFromStorage_readable
    by (try apply readable_of_writable; try apply writable_after_save; exact Hw).
  rewrite (blob_after_save key data ls Hw). simpl.
  unfold getProperty. now rewrite (assignProperty_other _ key data other Hne).
- now rewrite (saveToStorage_not_writable key data ls Hw).
Qed.


(** X3.  On a store whose item is absent, is not JSON or holds a JSON
  object: saving under one key never changes what is loaded under
  another, whether the save returns true or false. *)
Theorem loadFromStorage_other_key key other data ls :
other <> key ->
loadFromStorage other (fst (saveToStorage key data ls)) = loadFromStorage other ls.
Proof. apply load_other_key. Qed.

Lemma loadFromStorage_other_key_witness :
loadFromStorage "userLocation"
  (fst (saveToStorage "currentWeather" JNull
          (fst (saveToStorage "userLocation" (JStr "1.30,103.85") emptyStore))))
  = Value (JStr "1.30,103.85").
Proof.
rewrite (loadFromStorage_other_key "currentWeather" "userLocation" JNull).
- reflexivity.
- discriminate.
Defined.

(** X4.  The last write wins.  On a store whose item is absent or holds
  a JSON object: when the second of two saves under the same key
  returns true, the store it leaves and its answer are those of the
  second save alone, whatever the first save did, and the second value
  is the one loaded back. *)
Theorem saveToStorage_overwrites key (first second : json) ls :
snd (saveToStorage key second (fst (saveToStorage key first ls))) = true ->
saveToStorage key second (fst (saveToStorage key first ls)) = saveToStorage key second ls /\
(key <> "__proto__" \/ is_Some (default ∅ (blob ls) !! key) ->
 loadFromStorage key (fst (saveToStorage key second (fst (saveToStorage key first ls))))
   = if truthy_json second then Value second else Value JNull).
Proof.
intros Hsecond.
assert (Heq : saveToStorage key second (fst (saveToStorage key first ls))
              = saveToStorage key second ls).
{ destruct (writable ls) eqn:Hw.
  - rewrite (saveToStorage_writable key second _ (writable_after_save key first ls Hw)).
    rewrite (blob_after_save key first ls Hw). simpl.
    rewrite (saveToStorage_writable key second ls Hw),
            (saveToStorage_writable key first ls Hw). simpl.
    now rewrite assignProperty_overwrite, insert_insert_eq.
  - now rewrite (saveToStorage_not_writable key first ls Hw). }
split; [exact Heq|].
intros Hkey. rewrite Heq in Hsecond |- *.
apply (load_after_save key second ls); [|exact Hkey].
destruct (saveToStorage key second ls) as [ls' saved]. simpl in *. now subst.
Qed.

Lemma saveToStorage_overwrites_witness :
loadFromStorage "userLocation"
  (fst (saveToStorage "userLocation" (JStr "1.35,103.82")
          (fst (saveToStorage "userLocation" (JStr "1.30,103.85") emptyStore))))
  = Value (JStr "1.35,103.82").
Proof.
destruct (saveToStorage_overwrites "userLocation" (JStr "1.30,103.85")
            (JStr "1.35,103.82") emptyStore eq_refl) as [_ Hload].
apply Hload. left. discriminate.
Defined.

(** X5.  Saves under different keys commute for what is loaded.  On a
  store whose item is absent or holds a JSON object: when the two
  saves return true in either order, every key loads the same value
  after one order as after the other. *)
Theorem saveToStorage_commutes (k1 k2 : string) (v1 v2 : json) ls :
k1 <> k2 ->
snd (saveToStorage k1 v1 ls) = true ->
snd (saveToStorage k2 v2 (fst (saveToStorage k1 v1 ls))) = true ->
snd (saveToStorage k2 v2 ls) = true ->
snd (saveToStorage k1 v1 (fst (saveToStorage k2 v2 ls))) = true ->
forall key,
  loadFromStorage key (fst (saveToStorage k2 v2 (fst (saveToStorage k1 v1 ls)))) =
  loadFromStorage key (fst (saveToStorage k1 v1 (fst (saveToStorage k2 v2 ls)))).
Proof.
intros Hne H1 H12 H2 H21 key.
pose proof (writable_of_saved _ _ _ H1) as Hw.
pose proof (writable_of_saved _ _ _ H12) as Hw1.
pose proof (writable_of_saved _ _ _ H21) as Hw2.
rewrite !loadFromStorage_readable
  by (apply readable_of_writable, writable_after_save; assumption).
rewrite (blob_after_save k2 v2 _ Hw1), (blob_after_save k1 v1 _ Hw2).
rewrite (blob_after_save k1 v1 ls Hw), (blob_after_save k2 v2 ls Hw). simpl.
now rewrite (assignProperty_commute _ k1 k2 v1 v2 Hne).
Qed.

Lemma saveToStorage_commutes_witness :
loadFromStorage "userLocation"
  (fst (saveToStorage "userLocation" (JStr "1.30,103.85")
          (fst (saveToStorage "currentWeather" (JStr "Clouds") emptyStore))))
= Value (JStr "1.30,103.85").
Proof.
rewrite <- (saveToStorage_commutes "userLocation" "currentWeather"
              (JStr "1.30,103.85") (JStr "Clouds") emptyStore);
  [|discriminate|reflexivity..].
rewrite (load_other_key "currentWeather" "userLocation"); [reflexivity | discriminate].
Defined.

End SaveAndLoad.

(** ** Geolocation and the Find Cleanups handlers *)

Lemma last_two {A} (l : list A) (x y : A) : last (l ++ [x; y]) = Some y.
Proof. change [x; y] with ([x] ++ [y])%list. now rewrite app_assoc, last_snoc. Qed.

Lemma last_three {A} (l : list A) (x y z : A) : last (l ++ [x; y; z]) = Some z.
Proof. change [x; y; z] with ([x; y] ++ [z])%list. now rewrite app_assoc, last_snoc. Qed.

(** X6.  [getUserLocation] with a position: the promise is fulfilled
    with the coordinates, which become [appState.userLocation], and the
    store is the one [saveToStorage] leaves; on a store whose item is
    absent or holds a JSON object, when that save returns true the
    coordinates can be loaded back under userLocation, and no other entry
    changes whatever the save returns.  Without a position (no
    geolocation, or a position error) the promise is rejected and nothing
    changes. *)
Theorem getUserLocation_outcomes (geo : PositionOutcome) (app : App) :
  match positionOf geo with
  | Some location =>
      snd (getUserLocation geo app) = Fulfilled location /\
      userLocation (fst (getUserLocation geo app)) = Some location /\
      localStorage (page (fst (getUserLocation geo app)))
        = fst (saveToStorage "userLocation" (Location_json location)
                 (localStorage (page app))) /\
      (snd (saveToStorage "userLocation" (Location_json location)
              (localStorage (page app))) = true ->
       loadFromStorage "userLocation" (localStorage (page (fst (getUserLocation geo app))))
         = Value (Location_json location)) /\
      (forall other : string, other <> "userLocation" ->
       loadFromStorage other (localStorage (page (fst (getUserLocation geo app))))
         = loadFromStorage other (localStorage (page app))) /\
      weatherWidget (page (fst (getUserLocation geo app))) = weatherWidget (page app) /\
      toasts (fst (getUserLocation geo app)) = toasts app
  | None =>
      fst (getUserLocation geo app) = app /\
      exists reason, snd (getUserLocation geo app) = RejectedWith reason
  end.
Proof.
  destruct geo as [|latitude longitude|]; simpl; [eauto | | eauto].
  pose proof (load_other_key "userLocation") as Hother.
  pose proof (load_after_save "userLocation"
                (Location_json {| lat := latitude; lon := longitude |})
                (localStorage (page app))) as Hload.
  destruct (saveToStorage _ _ _) as [ls saved] eqn:Hsave. simpl in *.
  repeat split.
  - intros ->. apply (Hload ls eq_refl). left. discriminate.
  - intros other Hne. specialize (Hother other (Location_json {| lat := latitude; lon := longitude |})
                                    (localStorage (page app)) Hne).
    now rewrite Hsave in Hother.
Qed.

Lemma getUserLocation_outcomes_witness :
  loadFromStorage "userLocation"
    (localStorage (page (fst (getUserLocation (PositionFound (13 # 10) 104) startApp))))
    = Value (Location_json {| lat := 13 # 10; lon := 104 |}).
Proof.
  apply (getUserLocation_outcomes (PositionFound (13 # 10) 104) startApp). reflexivity.
Defined.

(** X7.  The NEA handler: the location-error toast is the last toast
    exactly when no position was obtained.  With a position the map is
    scrolled into view after the two progress toasts; without one the
    page is untouched.  The weather widget is never changed. *)
Theorem nea_handleFindCleanups_outcomes (geo : PositionOutcome) (app : App) :
  (last (toasts (NEAPage.handleFindCleanups geo app)) = Some NEAPage.toast_unable
   <-> positionOf geo = None) /\
  (forall location : Location,
      positionOf geo = Some location ->
      toasts (NEAPage.handleFindCleanups geo app)
        = (toasts app ++ [NEAPage.toast_getting; NEAPage.toast_acquired])%list /\
      scrolledToMap (NEAPage.handleFindCleanups geo app) = true /\
      userLocation (NEAPage.handleFindCleanups geo app) = Some location) /\
  (positionOf geo = None ->
   page (NEAPage.handleFindCleanups geo app) = page app /\
   userLocation (NEAPage.handleFindCleanups geo app) = userLocation app /\
   scrolledToMap (NEAPage.handleFindCleanups geo app) = scrolledToMap app) /\
  weatherWidget (page (NEAPage.handleFindCleanups geo app)) = weatherWidget (page app).
Proof.
  unfold NEAPage.handleFindCleanups.
  destruct geo as [|latitude longitude|]; simpl.
  - rewrite <- app_assoc. simpl. rewrite last_two. repeat split; auto; discriminate.
  - destruct (saveToStorage _ _ _) as [ls saved]. simpl.
    rewrite <- app_assoc. simpl. rewrite last_two.
    repeat split; try discriminate; congruence.
  - rewrite <- app_assoc. simpl. rewrite last_two. repeat split; auto; discriminate.
Qed.

Lemma nea_handleFindCleanups_outcomes_witness :
  toasts (NEAPage.handleFindCleanups (PositionFound (13 # 10) 104) startApp)
    = [NEAPage.toast_getting; NEAPage.toast_acquired].
Proof.
  destruct (nea_handleFindCleanups_outcomes (PositionFound (13 # 10) 104) startApp)
    as (_ & Hfound & _).
  apply (Hfound {| lat := 13 # 10; lon := 104 |}). reflexivity.
Defined.

Lemma fetchWeatherData_returns (latitude longitude : Q) (api : FetchOutcome OWM.WeatherData)
    (pg : Page) :
  snd (OWM.fetchWeatherData latitude longitude api pg) = weatherFrom api.
Proof.
  destruct api as [|[[|] [data|]]]; simpl; try reflexivity.
  unfold OWM.fetchWeatherData. simpl. now destruct (saveToStorage _ _ _).
Qed.

Lemma weatherFrom_empty (api : FetchOutcome OWM.WeatherData) :
  OWM.weather (weatherFrom api) = [] -> exists data, api = delivers data /\ OWM.weather data = [].
Proof.
  destruct api as [|[[|] [data|]]]; simpl; try discriminate.
  intros H. exists data. split; [reflexivity | exact H].
Qed.

Section OwmHandler.

Variable decimalText : Q -> string.
Variable kilometresText : Q -> string.
Variable memberText : string -> string.

Let displayWeather := OWMPage.displayWeather decimalText kilometresText memberText.
Let handleFindCleanups := OWMPage.handleFindCleanups decimalText kilometresText memberText.

Lemma owm_displayWeather_raises_iff (weatherData : OWM.WeatherData) :
(OWM.weather weatherData = [] -> displayWeather weatherData = Throw TypeError) /\
(OWM.weather weatherData <> [] -> exists html, displayWeather weatherData = Ok html).
Proof.
unfold displayWeather, OWMPage.displayWeather, OWM.getWeatherRecommendation.
destruct (OWM.weather weatherData) as [|weather0 others]; simpl.
- split; [reflexivity | congruence].
- split; [discriminate|]. intros _.
  destruct (_ || _); [eauto|]. destruct (OWM.Qltb 30 _); [eauto|].
  destruct (OWM.Qltb _ 15); eauto.
Qed.

(** X8.  The handler of [js/app.js]: the location-error toast is the last
  toast exactly when no position was obtained or the API delivered a
  reading with no weather entry, and in both cases the widget keeps
  its content.  Otherwise the widget shows the delivered reading, or
  the mock when the API failed, and the map is scrolled into view. *)
Theorem owm_handleFindCleanups_outcomes (geo : PositionOutcome)
  (api : FetchOutcome OWM.WeatherData) (app : App) :
(last (toasts (handleFindCleanups geo api app)) = Some OWMPage.toast_unable
 <-> positionOf geo = None \/ OWM.weather (weatherFrom api) = []) /\
(positionOf geo = None \/ OWM.weather (weatherFrom api) = [] ->
 weatherWidget (page (handleFindCleanups geo api app)) = weatherWidget (page app) /\
 scrolledToMap (handleFindCleanups geo api app) = scrolledToMap app) /\
(positionOf geo <> None -> OWM.weather (weatherFrom api) <> [] ->
 displayWeather (weatherFrom api)
   = Ok (weatherWidget (page (handleFindCleanups geo api app))) /\
 scrolledToMap (handleFindCleanups geo api app) = true /\
 toasts (handleFindCleanups geo api app)
   = (toasts app ++ [OWMPage.toast_getting; OWMPage.toast_acquired])%list) /\
(positionOf geo = None -> page (handleFindCleanups geo api app) = page app).
Proof.
unfold handleFindCleanups, OWMPage.handleFindCleanups.
destruct geo as [|latitude longitude|]; simpl.
- rewrite <- app_assoc. simpl. rewrite last_two. repeat split; auto; congruence.
- destruct (saveToStorage _ _ _) as [ls saved]. simpl.
  pose proof (fetchWeatherData_returns latitude longitude api
                {| localStorage := ls;
                   currentWeather := currentWeather (page app);
                   weatherWidget := weatherWidget (page app) |}) as Hret.
  assert (Hwidget : weatherWidget
                      (fst (OWM.fetchWeatherData latitude longitude api
                              {| localStorage := ls;
                                 currentWeather := currentWeather (page app);
                                 weatherWidget := weatherWidget (page app) |}))
                    = weatherWidget (page app)).
  { destruct api as [|[[|] [data|]]]; simpl; try reflexivity.
    unfold OWM.fetchWeatherData. simpl. now destruct (saveToStorage _ _ _). }
  destruct (OWM.fetchWeatherData _ _ _ _) as [pg weather]. simpl in Hret, Hwidget.
  subst weather.
  destruct (owm_displayWeather_raises_iff (weatherFrom api)) as [Hraise Hok].
  fold displayWeather.
  destruct (OWM.weather (weatherFrom api)) as [|weather0 others] eqn:Hweather.
  + rewrite (Hraise eq_refl). simpl.
    rewrite <- !app_assoc. simpl. rewrite last_three.
    repeat split; auto; congruence.
  + destruct Hok as [html Hhtml]; [discriminate|]. rewrite Hhtml. simpl.
    rewrite <- !app_assoc. simpl. rewrite last_two.
    repeat split; try discriminate; try congruence;
      try (intros [H|H]; discriminate H);
      match goal with H : _ \/ _ |- _ => destruct H as [H|H]; discriminate H end.
- rewrite <- app_assoc. simpl. rewrite last_two. repeat split; auto; congruence.
Qed.

End OwmHandler.

Lemma owm_handleFindCleanups_outcomes_witness :
  last (toasts (OWMPage.handleFindCleanups (fun _ => "5.2") (fun _ => "10.0") (fun name => name)
                  (PositionFound (13 # 10) 104)
                  (delivers {| OWM.name := "Changi";
                               OWM.main := OWM.main OWM.getMockWeatherData;
                               OWM.weather := [];
                               OWM.wind := OWM.wind OWM.getMockWeatherData;
                               OWM.visibility := 10000 |})
                  startApp))
    = Some OWMPage.toast_unable.
Proof.
  apply (owm_handleFindCleanups_outcomes (fun _ => "5.2") (fun _ => "10.0") (fun name => name)).
  right. reflexivity.
Defined.

(** ** More on the NEA pipeline *)

Lemma firstDay_rejects (primary : FetchOutcome NEA.ForecastData) :
  rejects primary = true -> firstDay primary = None.
Proof. by_outcome primary. Qed.

Lemma ForecastData_json_truthy (data : NEA.ForecastData) :
  truthy_json (NEA.ForecastData_json data) = true.
Proof. unfold NEA.ForecastData_json. now destruct (NEA.items data). Qed.

Section MorePipeline.

Variable weekdayOf : string -> option NEA.Weekday.
Variable monthDayOf : string -> string.

Let displayWeather := NEA.displayWeather weekdayOf monthDayOf.

(** X9.  The failure view is rendered exactly when the forecast has no
  first day (the primary source failed, or delivered no items, or a
  first item without forecasts) or the secondary source answered with
  an empty list of items; in every other case the success view is
  rendered. *)
Theorem displayWeather_failure_iff (primary : FetchOutcome NEA.ForecastData)
  (secondary : FetchOutcome NEA.AirTemperature.Data) (pg : Page) :
weatherWidget (displayWeather primary secondary pg) = NEA.failureHtml
<-> firstDay primary = None \/ emptyItems secondary = true.
Proof.
destruct (outcome_cases primary) as [Hrej | [data ->]].
- unfold displayWeather. rewrite (displayWeather_primary_rejects _ _ _ _ _ Hrej). simpl.
  rewrite (firstDay_rejects primary Hrej). tauto.
- pose proof (readCurrentTemp_raises_iff secondary) as Htemp.
  destruct (NEA.items data) as [[|item0 rest]|] eqn:Hitems.
  + unfold displayWeather.
    rewrite (displayWeather_no_items _ _ data secondary pg (or_intror Hitems)).
    simpl. rewrite Hitems. tauto.
  + destruct (NEA.forecasts item0) as [|today later] eqn:Hdays.
    * unfold displayWeather, NEA.displayWeather.
      rewrite fetchWeatherForecast_delivers. unfold NEA.renderWeather.
      rewrite Hitems. cbv beta iota zeta delta [bind]. rewrite Hdays.
      simpl. rewrite Hitems, Hdays. simpl.
      destruct (NEA.readCurrentTemp _); tauto.
    * simpl. rewrite Hitems, Hdays. simpl.
      destruct (emptyItems secondary).
      -- unfold displayWeather, NEA.displayWeather.
         rewrite fetchWeatherForecast_delivers. unfold NEA.renderWeather.
         rewrite Hitems. cbv beta iota zeta delta [bind]. rewrite Htemp. simpl. tauto.
      -- destruct Htemp as [currentTemp Htemp]. unfold displayWeather.
         rewrite (displayWeather_renders _ _ data item0 rest today later secondary
                    currentTemp pg Hitems Hdays Htemp). simpl.
         split; [intros H; now apply widgetHtml_not_failure in H|].
         intros [H|H]; discriminate H.
  + unfold displayWeather.
    rewrite (displayWeather_no_items _ _ data secondary pg (or_introl Hitems)).
    simpl. rewrite Hitems. tauto.
Qed.

(** X10.  A first reading of exactly 0 is treated as no reading: the
  page is the one a rejected secondary source gives. *)
Theorem zero_reading_is_dropped (primary : FetchOutcome NEA.ForecastData)
  (temp : NEA.AirTemperature.Data) (q : Q) (pg : Page) :
NEA.readCurrentTemp (Some temp) = Ok (Some q) ->
(q == 0)%Q ->
displayWeather primary (delivers temp) pg = displayWeather primary Rejected pg.
Proof.
intros Hread Hzero. unfold displayWeather, NEA.displayWeather.
destruct (NEA.fetchWeatherForecast primary pg) as [pg' forecastData].
f_equal. unfold NEA.renderWeather.
change (NEA.fetchCurrentTemp (delivers temp)) with (Some temp).
change (NEA.fetchCurrentTemp Rejected) with (@None NEA.AirTemperature.Data).
destruct forecastData as [data|]; [|reflexivity].
destruct (NEA.items data) as [[|item0 rest]|]; try reflexivity.
cbv beta iota zeta delta [bind]. rewrite Hread.
change (NEA.readCurrentTemp None) with (@Ok (option Q) None).
cbv beta iota. destruct (NEA.forecasts item0); [reflexivity|].
unfold NEA.currentTempSlot. apply Qeq_bool_iff in Hzero. now rewrite Hzero.
Qed.

(** X11.  A delivered forecast is kept as [appState.currentWeather]
  whether or not it can be rendered, and the store is the one
  [saveToStorage] leaves for it, so the secondary source has no
  influence on the store.  On a store whose item is absent or holds a
  JSON object, when that save returns true the document can be loaded
  back under weatherForecast; entries under other keys are not affected
  whatever the save returns. *)
Theorem delivered_forecast_is_cached (data : NEA.ForecastData)
  (secondary secondary' : FetchOutcome NEA.AirTemperature.Data) (pg : Page) :
currentWeather (displayWeather (delivers data) secondary pg) = NEA.ForecastData_json data /\
localStorage (displayWeather (delivers data) secondary pg)
  = fst (saveToStorage "weatherForecast" (NEA.ForecastData_json data) (localStorage pg)) /\
(snd (saveToStorage "weatherForecast" (NEA.ForecastData_json data) (localStorage pg)) = true ->
 loadFromStorage "weatherForecast" (localStorage (displayWeather (delivers data) secondary pg))
   = Value (NEA.ForecastData_json data)) /\
(forall other : string, other <> "weatherForecast" ->
 loadFromStorage other (localStorage (displayWeather (delivers data) secondary pg))
   = loadFromStorage other (localStorage pg)) /\
localStorage (displayWeather (delivers data) secondary' pg)
  = localStorage (displayWeather (delivers data) secondary pg).
Proof.
unfold displayWeather, NEA.displayWeather.
rewrite !fetchWeatherForecast_delivers. simpl.
repeat split.
- intros Hsaved.
  rewrite (load_after_save "weatherForecast" (NEA.ForecastData_json data)
             (localStorage pg)).
  + now rewrite ForecastData_json_truthy.
  + destruct (saveToStorage _ _ _) as [ls' saved]. simpl in *. now subst.
  + left. discriminate.
- intros other Hne. now apply load_other_key.
Qed.

End MorePipeline.

Lemma zero_reading_is_dropped_witness :
  NEA.displayWeather fridays december (delivers (forecastOf [day "Fair (Day)" 31]))
    (delivers (airTemperatureOf 0)) freshPage
  = NEA.displayWeather fridays december (delivers (forecastOf [day "Fair (Day)" 31]))
      Rejected freshPage.
Proof.
  apply (zero_reading_is_dropped fridays december _ (airTemperatureOf 0) 0 freshPage);
    reflexivity.
Defined.

Lemma delivered_forecast_is_cached_witness :
  loadFromStorage "weatherForecast"
    (localStorage (NEA.displayWeather fridays december
                     (delivers {| NEA.items := Some [] |}) Rejected freshPage))
    = Value (JObj {[ "items" := JArr [] ]}).
Proof.
  apply (delivered_forecast_is_cached fridays december {| NEA.items := Some [] |}
           Rejected Rejected freshPage).
  reflexivity.
Defined.

(** ** Decision tables *)

Section Tables.

Import JsString.

Lemma heavy_rain_is_rain (d : NEA.DayForecast) :
mentions "heavy rain" d = true -> mentions "rain" d = true.
Proof. unfold mentions. apply includes_within. reflexivity. Qed.

(** Case analysis on the words of a forecast text and on the heat
  threshold, keeping only the combinations a text can have. *)
Ltac by_words d :=
pose proof (heavy_rain_is_rain d);
pose proof (cloudy_within_partly_cloudy (toLowerCase (NEA.forecast d)));
unfold NEA.getCleanupRecommendation, NEA.getWeatherIcon, mentions in *;
repeat match goal with
       | |- context [includes ?word ?text] => destruct (includes word text)
       | H : context [includes ?word ?text] |- _ => destruct (includes word text)
       end;
simpl in *;
try match goal with H : true = true -> false = true |- _ => discriminate (H eq_refl) end;
repeat match goal with H : _ -> _ |- _ => clear H end.

(** X12.  The decision table of [getCleanupRecommendation]: which
  message comes out, in terms of the words of the lowered text and of
  the high temperature.  Heavy rain or thunder give the severe message;
  other rain or showers the gear warning; a dry text gives the heat
  warning above 32 degrees and, up to 32 degrees, the positive message
  when it says fair or sunny and the neutral one otherwise. *)
Theorem recommendation_table (d : NEA.DayForecast) :
let wet := mentions "thunder" d || mentions "shower" d || mentions "rain" d in
let severe := mentions "thunder" d || mentions "heavy rain" d in
let bright := mentions "fair" d || mentions "sunny" d in
let highTemp := NEA.high (NEA.temperature d) in
(NEA.getCleanupRecommendation d = NEA.msg_severe <-> severe = true) /\
(NEA.getCleanupRecommendation d = NEA.msg_gear <-> severe = false /\ wet = true) /\
(NEA.getCleanupRecommendation d = NEA.msg_heat <-> wet = false /\ (32 < highTemp)%Z) /\
(NEA.getCleanupRecommendation d = NEA.msg_perfect
 <-> wet = false /\ (highTemp <= 32)%Z /\ bright = true) /\
(NEA.getCleanupRecommendation d = NEA.msg_good
 <-> wet = false /\ (highTemp <= 32)%Z /\ bright = false).
Proof.
cbv zeta.
destruct (Z.ltb_spec 32 (NEA.high (NEA.temperature d))) as [Hhot | Hmild];
  pose proof I as Hmark;
  by_words d;
  match goal with
  | Hl : (32 < _)%Z |- _ => apply Z.ltb_lt in Hl as Hb
  | Hl : (_ <= 32)%Z |- _ => apply Z.ltb_ge in Hl as Hb
  end;
  rewrite ?Hb;
  repeat split; intros; try discriminate; try tauto; try lia;
  repeat match goal with H : _ /\ _ |- _ => destruct H end;
  try discriminate; try lia.
Qed.

(** X13.  The icon of a day agrees with the recommendation computed
  from the same text: the gear warning goes with the rain icon, the
  thunder icon with the severe message, the severe message with the
  thunder or rain icon, the rain icon with the severe or gear
  message, and the positive message with the sunny or cloudy icon. *)
Theorem icon_agrees_with_recommendation (d : NEA.DayForecast) :
let icon := NEA.getWeatherIcon (NEA.forecast d) in
let message := NEA.getCleanupRecommendation d in
(message = NEA.msg_gear -> icon = NEA.icon_rain) /\
(icon = NEA.icon_thunder -> message = NEA.msg_severe) /\
(message = NEA.msg_severe -> icon = NEA.icon_thunder \/ icon = NEA.icon_rain) /\
(icon = NEA.icon_rain -> message = NEA.msg_severe \/ message = NEA.msg_gear) /\
(message = NEA.msg_perfect -> icon = NEA.icon_sunny \/ icon = NEA.icon_cloudy).
Proof.
cbv zeta.
destruct (32 <? NEA.high (NEA.temperature d))%Z eqn:Hb;
  by_words d; rewrite ?Hb in *;
  repeat split; intros; try discriminate; auto.
Qed.

End Tables.

Lemma recommendation_table_witness :
  NEA.getCleanupRecommendation (day "Fair and warm" 32) = NEA.msg_perfect.
Proof.
  apply (recommendation_table (day "Fair and warm" 32)).
  repeat split. discriminate.
Defined.

Lemma icon_agrees_with_recommendation_witness :
  NEA.getWeatherIcon (NEA.forecast (day "Passing Showers" 33)) = NEA.icon_rain.
Proof.
  apply (icon_agrees_with_recommendation (day "Passing Showers" 33)). reflexivity.
Defined.

(** ** More on the OpenWeatherMap variant *)

Lemma Qltb_lt (x y : Q) : OWM.Qltb x y = true <-> (x < y)%Q.
Proof.
  unfold OWM.Qltb. rewrite negb_true_iff. split.
  - intros H. apply Qnot_le_lt. intros Hle. apply Qle_bool_iff in Hle. congruence.
  - intros H. destruct (Qle_bool y x) eqn:E; [|reflexivity].
    apply Qle_bool_iff in E. exfalso. exact (Qlt_not_le _ _ H E).
Qed.

Lemma Qltb_ge (x y : Q) : OWM.Qltb x y = false <-> (y <= x)%Q.
Proof.
  unfold OWM.Qltb. rewrite negb_false_iff. apply Qle_bool_iff.
Qed.

(** X14.  The thresholds of [getWeatherRecommendation].  Rain and
    Thunderstorm give the not-ideal message at any temperature.  For any
    other condition the message is the hot one exactly above 30 degrees,
    the chilly one exactly below 15, and the positive one exactly from 15
    to 30, both bounds included. *)
Theorem owm_recommendation_thresholds (w : OWM.WeatherData) (first : OWM.Weather.t)
    (others : list OWM.Weather.t) :
  OWM.weather w = first :: others ->
  (OWM.Weather.main first = "Rain" \/ OWM.Weather.main first = "Thunderstorm" ->
   OWM.getWeatherRecommendation w = Ok OWM.msg_not_ideal) /\
  (OWM.Weather.main first <> "Rain" -> OWM.Weather.main first <> "Thunderstorm" ->
   (OWM.getWeatherRecommendation w = Ok OWM.msg_hot <-> (30 < OWM.temp (OWM.main w))%Q) /\
   (OWM.getWeatherRecommendation w = Ok OWM.msg_chilly <-> (OWM.temp (OWM.main w) < 15)%Q) /\
   (OWM.getWeatherRecommendation w = Ok OWM.msg_perfect
    <-> (15 <= OWM.temp (OWM.main w))%Q /\ (OWM.temp (OWM.main w) <= 30)%Q)).
Proof.
  intros Hw. split.
  - intros Hc. unfold OWM.getWeatherRecommendation. rewrite Hw. simpl.
    now destruct Hc as [-> | ->].
  - intros Hrain Hthunder.
    assert (Hrec : OWM.getWeatherRecommendation w
                   = Ok (byTemperature (OWM.temp (OWM.main w)))).
    { unfold OWM.getWeatherRecommendation, byTemperature. rewrite Hw. simpl.
      rewrite (string_eqb_false _ _ Hrain), (string_eqb_false _ _ Hthunder). simpl.
      destruct (OWM.Qltb 30 _); [reflexivity|]. destruct (OWM.Qltb _ 15); reflexivity. }
    rewrite Hrec. unfold byTemperature.
    destruct (OWM.Qltb 30 (OWM.temp (OWM.main w))) eqn:Hhot.
    + apply Qltb_lt in Hhot.
      repeat split; intros; try discriminate; try assumption.
      * assert (Hc : (30 < 15)%Q) by (eapply Qlt_trans; eassumption).
        now compute in Hc.
      * destruct H as [_ H]. exfalso. exact (Qlt_not_le _ _ Hhot H).
    + apply Qltb_ge in Hhot.
      destruct (OWM.Qltb (OWM.temp (OWM.main w)) 15) eqn:Hcold.
      * apply Qltb_lt in Hcold.
        repeat split; intros; try discriminate; try assumption.
        -- exfalso. exact (Qlt_not_le _ _ H Hhot).
        -- destruct H as [H _]. exfalso. exact (Qlt_not_le _ _ Hcold H).
      * apply Qltb_ge in Hcold.
        repeat split; intros; try discriminate; try assumption.
        -- exfalso. exact (Qlt_not_le _ _ H Hhot).
        -- exfalso. exact (Qlt_not_le _ _ H Hcold).
Qed.

Lemma owm_recommendation_thresholds_witness :
  OWM.getWeatherRecommendation (reading "Clouds" 30) = Ok OWM.msg_perfect /\
  OWM.getWeatherRecommendation (reading "Rain" 20) = Ok OWM.msg_not_ideal.
Proof.
  split.
  - apply (owm_recommendation_thresholds (reading "Clouds" 30) _ _ eq_refl);
      try discriminate.
    split; discriminate.
  - apply (owm_recommendation_thresholds (reading "Rain" 20) _ _ eq_refl).
    left. reflexivity.
Defined.

Lemma WeatherData_json_truthy (data : OWM.WeatherData) :
  truthy_json (OWM.WeatherData_json data) = true.
Proof. reflexivity. Qed.

Lemma Location_json_truthy (location : Location) :
  truthy_json (Location_json location) = true.
Proof. reflexivity. Qed.

Lemma fetchWeatherData_store (latitude longitude : Q) (api : FetchOutcome OWM.WeatherData)
    (pg : Page) :
  localStorage (fst (OWM.fetchWeatherData latitude longitude api pg)) =
    match api with
    | Rejected => localStorage pg
    | Resolved response =>
        match ok response, body response with
        | true, Some data =>
            fst (saveToStorage "currentWeather" (OWM.WeatherData_json data) (localStorage pg))
        | _, _ => localStorage pg
        end
    end.
Proof.
  destruct api as [|[[|] [data|]]]; simpl; try reflexivity.
  unfold OWM.fetchWeatherData. simpl. now destruct (saveToStorage _ _ _).
Qed.

Lemma load_saved (key : string) (data : json) (ls : LocalStorage) :
  snd (saveToStorage key data ls) = true -> key <> "__proto__" -> truthy_json data = true ->
  loadFromStorage key (fst (saveToStorage key data ls)) = Value data.
Proof.
  intros Hsaved Hkey Htruthy.
  rewrite (load_after_save key data ls (fst (saveToStorage key data ls))).
  - now rewrite Htruthy.
  - destruct (saveToStorage key data ls). simpl in *. now subst.
  - now left.
Qed.

Section OwmStore.

Variable decimalText : Q -> string.
Variable kilometresText : Q -> string.
Variable memberText : string -> string.

Let handleFindCleanups := OWMPage.handleFindCleanups decimalText kilometresText memberText.

Lemma owm_handleFindCleanups_store (latitude longitude : Q)
  (api : FetchOutcome OWM.WeatherData) (app : App) :
localStorage (page (handleFindCleanups (PositionFound latitude longitude) api app)) =
localStorage
  (fst (OWM.fetchWeatherData latitude longitude api
          {| localStorage :=
               fst (saveToStorage "userLocation"
                      (Location_json {| lat := latitude; lon := longitude |})
                      (localStorage (page app)));
             currentWeather := currentWeather (page app);
             weatherWidget := weatherWidget (page app) |})).
Proof.
unfold handleFindCleanups, OWMPage.handleFindCleanups. simpl.
destruct (saveToStorage _ _ _) as [ls saved]. simpl.
destruct (OWM.fetchWeatherData _ _ _ _) as [pg weather]. simpl.
now destruct (OWMPage.displayWeather _ _ _ _).
Qed.

(** X15.  What the handler of [js/app.js] leaves in the store once it
  has a position, on a store whose item is absent or holds a JSON
  object.  When the save of the position returns true, the position can
  be loaded back under userLocation whatever the API did and whatever
  the later save of the reading returns.  When the API delivers a
  reading and the save of that reading returns true, the reading can be
  loaded back under currentWeather, also when it could not be
  displayed.  When the API fails the mock is displayed but never
  stored: the currentWeather entry is as it was. *)
Theorem owm_handleFindCleanups_stores (latitude longitude : Q)
  (api : FetchOutcome OWM.WeatherData) (app : App) :
let location := Location_json {| lat := latitude; lon := longitude |} in
let located := fst (saveToStorage "userLocation" location (localStorage (page app))) in
let store := localStorage (page (handleFindCleanups (PositionFound latitude longitude)
                                   api app)) in
(snd (saveToStorage "userLocation" location (localStorage (page app))) = true ->
 loadFromStorage "userLocation" store = Value location) /\
(forall data, api = delivers data ->
   store = fst (saveToStorage "currentWeather" (OWM.WeatherData_json data) located) /\
   (snd (saveToStorage "currentWeather" (OWM.WeatherData_json data) located) = true ->
    loadFromStorage "currentWeather" store = Value (OWM.WeatherData_json data))) /\
(rejects api = true ->
   store = located /\
   loadFromStorage "currentWeather" store
     = loadFromStorage "currentWeather" (localStorage (page app))).
Proof.
intros location located store. subst location located store.
rewrite owm_handleFindCleanups_store, fetchWeatherData_store. simpl.
assert (Hweather : loadFromStorage "currentWeather"
                     (fst (saveToStorage "userLocation"
                             (Location_json {| lat := latitude; lon := longitude |})
                             (localStorage (page app))))
                   = loadFromStorage "currentWeather" (localStorage (page app))).
{ apply load_other_key. discriminate. }
split; [|split].
- intros Hsaved.
  assert (Hloc : loadFromStorage "userLocation"
                   (fst (saveToStorage "userLocation"
                           (Location_json {| lat := latitude; lon := longitude |})
                           (localStorage (page app))))
                 = Value (Location_json {| lat := latitude; lon := longitude |})).
  { apply load_saved; [assumption | discriminate | reflexivity]. }
  destruct api as [|[[|] [data|]]]; simpl; try exact Hloc.
  rewrite load_other_key by discriminate. exact Hloc.
- intros data ->. simpl. split; [reflexivity|].
  intros Hsaved. apply load_saved; [assumption | discriminate | reflexivity].
- intros Hrej. destruct api as [|[[|] [data|]]]; simpl in *;
    (discriminate Hrej || (split; [reflexivity | exact Hweather])).
Qed.

End OwmStore.

Lemma owm_handleFindCleanups_stores_witness :
  loadFromStorage "userLocation"
    (localStorage (page (OWMPage.handleFindCleanups
                           (fun _ => "5.2") (fun _ => "10.0") (fun name => name)
                           (PositionFound (13 # 10) 104) (delivers (reading "Clouds" 28))
                           startApp)))
    = Value (Location_json {| lat := 13 # 10; lon := 104 |}) /\
  loadFromStorage "currentWeather"
    (localStorage (page (OWMPage.handleFindCleanups
                           (fun _ => "5.2") (fun _ => "10.0") (fun name => name)
                           (PositionFound (13 # 10) 104) (delivers (reading "Clouds" 28))
                           startApp)))
    = Value (OWM.WeatherData_json (reading "Clouds" 28)).
Proof.
  destruct (owm_handleFindCleanups_stores (fun _ => "5.2") (fun _ => "10.0")
              (fun name => name) (13 # 10) 104 (delivers (reading "Clouds" 28)) startApp)
    as (Hlocation & Hreading & _).
  split.
  - apply Hlocation. reflexivity.
  - apply (Hreading (reading "Clouds" 28) eq_refl). reflexivity.
Defined.
(** ** The events grid *)

Section EventsGrid.

Variable formatDate : string -> string.

Let displayEvents := Events.displayEvents formatDate.

Lemma eventCard_split (event : Events.Event) :
Events.eventCard formatDate event =
  Events.beforeJoinButton formatDate event +:+ joinButton (Events.id event) +:+
  Events.afterJoinButton event.
Proof.
unfold Events.eventCard, Events.beforeJoinButton, Events.afterJoinButton, joinButton.
rewrite !append_assoc. reflexivity.
Qed.

Lemma eventCard_not_empty_view (event : Events.Event) (rest : string) :
Events.eventCard formatDate event +:+ rest <> Events.emptyHtml.
Proof.
rewrite eventCard_split. unfold Events.beforeJoinButton. rewrite !append_assoc.
intros H. apply (f_equal (String.get 9)) in H. cbv in H. discriminate H.
Qed.

(** X16.  [displayEvents] shows the empty view for an empty list only;
  otherwise the grid is the concatenation of the cards, so that
  displaying two non-empty lists one after the other is displaying
  their concatenation, and every event of the list has in the grid a
  Join Cleanup button carrying its own id. *)
Theorem displayEvents_cards (events more : list Events.Event) :
displayEvents [] = Events.emptyHtml /\
(events <> [] -> displayEvents events <> Events.emptyHtml) /\
(events <> [] -> more <> [] ->
 displayEvents (events ++ more) = displayEvents events +:+ displayEvents more) /\
(forall event : Events.Event, In event events ->
 JsString.includes (joinButton (Events.id event)) (displayEvents events) = true).
Proof.
split; [reflexivity|]. split; [|split].
- destruct events as [|event rest]; [congruence|]. intros _.
  apply eventCard_not_empty_view.
- destruct events as [|e1 r1]; [congruence|]. destruct more as [|e2 r2]; [congruence|].
  intros _ _. unfold displayEvents, Events.displayEvents.
  change ((e1 :: r1) ++ e2 :: r2)%list with (e1 :: (r1 ++ e2 :: r2))%list.
  cbv beta iota.
  change (e1 :: (r1 ++ e2 :: r2))%list with ((e1 :: r1) ++ e2 :: r2)%list.
  now rewrite map_app, join_app.
- intros event Hin.
  destruct events as [|e1 r1]; [contradiction|].
  unfold displayEvents, Events.displayEvents.
  apply (includes_join _ (Events.eventCard formatDate event)).
  + now apply in_map.
  + apply includes_iff_append.
    exists (Events.beforeJoinButton formatDate event), (Events.afterJoinButton event).
    apply eventCard_split.
Qed.

End EventsGrid.

Lemma displayEvents_cards_witness :
  JsString.includes (joinButton 2)
    (Events.displayEvents (fun date => date) Events.getMockEvents) = true.
Proof.
  destruct (displayEvents_cards (fun date => date) Events.getMockEvents []) as (_ & _ & _ & H).
  apply (H {| Events.id := 2; Events.title := "Saturday Squad Session";
              Events.date := "2025-12-07"; Events.time := "09:00";
              Events.location := "Venice Beach, LA"; Events.attendees := 45;
              Events.image :=
                "https://images.unsplash.com/photo-1507525428034-b723cf961d3e?w=400" |}).
  right. left. reflexivity.
Defined.

